(** * Trivy offline scanner: a shallow embedding of [trivy_offline_scanner.py]

    The development follows the Python class [TrivyOfflineScanner]:

    - Python values that [json.loads] can return are the type [json];
    - exceptions are the type [exn], and a computation that may raise has
      a result of type [outcome];
    - the methods that touch the outside world (the file system, the
      container runtime, sub-processes, the logger) are written in a state
      and exception monad [M] over the record [state], relative to an
      environment [Env] that answers for the external programs;
    - dictionaries built by the code ([summary], [results]) are [gmap]s. *)

From Stdlib Require Import ZArith String List Bool.
From Stdlib Require Import Floats.SpecFloat.
From stdpp Require Import base option gmap strings list fin_maps.
From stdpp Require Import pretty.

#[local] Set Warnings "-register-all,-clear-no-such-hyp".

Local Open Scope Z_scope.
Local Open Scope string_scope.

(** ** Exceptions and outcomes *)

(** The exception classes that the modelled code can meet.  All of them are
    subclasses of Python's [Exception]; only [CalledProcessError] is caught
    by the narrower handler of [setup_database]. *)
Inductive exn : Type :=
| TypeError
| AttributeError
| KeyError
| JSONDecodeError (msg : string)
| CalledProcessError (cmd : list string) (returncode : Z)
| FileExistsError
| NotADirectoryError
| OSError (msg : string)
| DockerException (msg : string).

Definition is_CalledProcessError (e : exn) : bool :=
  match e with CalledProcessError _ _ => true | _ => false end.

Inductive outcome (A : Type) : Type :=
| Returned (a : A)
| Raised (e : exn).
Arguments Returned {A} a.
Arguments Raised {A} e.

#[global] Instance outcome_ret : MRet outcome := fun A a => Returned a.
#[global] Instance outcome_bind : MBind outcome := fun A B f c =>
  match c with
  | Returned a => f a
  | Raised e => Raised e
  end.

(** A [for] loop whose body threads an accumulator and may raise. *)
Fixpoint for_each {A B} (body : B → A → outcome B) (xs : list A) (acc : B)
  : outcome B :=
  match xs with
  | [] => Returned acc
  | x :: rest => acc' ← body acc x; for_each body rest acc'
  end.

(** ** Python values as decoded by [json.loads] *)

(** A [JObj] carries the items of a [dict] in insertion order.  The keys of
    a Python [dict] are pairwise distinct; where a list repeats a key the
    first binding is the one every operation below looks at.  A [JFloat]
    is an IEEE double in the canonical form of [SpecFloat]. *)
Inductive json : Type :=
| JNull
| JBool (b : bool)
| JInt (z : Z)
| JFloat (f : spec_float)
| JStr (s : string)
| JArr (elems : list json)
| JObj (items : list (string * json)).

(** [bool(x)] *)
Definition truthy (x : json) : bool :=
  match x with
  | JNull => false
  | JBool b => b
  | JInt z => negb (Z.eqb z 0)
  | JFloat (S754_zero _) => false
  | JFloat _ => true
  | JStr s => negb (String.eqb s "")
  | JArr l => match l with [] => false | _ => true end
  | JObj l => match l with [] => false | _ => true end
  end.

(** [needle in hay] on strings: [needle] occurs as a contiguous part. *)
Fixpoint str_contains (needle hay : string) : bool :=
  String.prefix needle hay ||
  match hay with
  | EmptyString => false
  | String _ rest => str_contains needle rest
  end.

(** The one-character strings that iterating over a [str] yields. *)
Fixpoint str_chars (s : string) : list string :=
  match s with
  | EmptyString => []
  | String c rest => String c EmptyString :: str_chars rest
  end.

Definition is_str (k : string) (x : json) : bool :=
  match x with JStr s => String.eqb s k | _ => false end.

Fixpoint dict_lookup {V} (k : string) (items : list (string * V)) : option V :=
  match items with
  | [] => None
  | (k', v) :: rest => if String.eqb k' k then Some v else dict_lookup k rest
  end.

(** [k in x] for a string literal [k] *)
Definition py_in (k : string) (x : json) : outcome bool :=
  match x with
  | JObj items => Returned (bool_decide (is_Some (dict_lookup k items)))
  | JArr elems => Returned (existsb (is_str k) elems)
  | JStr s => Returned (str_contains k s)
  | JNull | JBool _ | JInt _ | JFloat _ => Raised TypeError
  end.

(** [x[k]] for a string literal [k] *)
Definition py_getitem (x : json) (k : string) : outcome json :=
  match x with
  | JObj items =>
      match dict_lookup k items with
      | Some v => Returned v
      | None => Raised KeyError
      end
  | _ => Raised TypeError
  end.

(** [x.get(k, dflt)]: only a [dict] has the method. *)
Definition py_get (x : json) (k : string) (dflt : json) : outcome json :=
  match x with
  | JObj items => Returned (default dflt (dict_lookup k items))
  | _ => Raised AttributeError
  end.

(** The values [for v in x] runs through; [iter(x)] fails before the first
    round when [x] is not iterable. *)
Definition py_iter (x : json) : outcome (list json) :=
  match x with
  | JArr elems => Returned elems
  | JObj items => Returned (map (λ kv, JStr kv.1) items)
  | JStr s => Returned (map JStr (str_chars s))
  | JNull | JBool _ | JInt _ | JFloat _ => Raised TypeError
  end.

(** ** Dictionary keys *)

(** Keys of the summary dictionary, up to Python's key equality: [True] is
    the key [1], [False] and both float zeros are the key [0], and a float
    with an integral value is the key of that integer. *)
Inductive pykey : Type :=
| KNone
| KInt (z : Z)
| KFloat (f : spec_float)
| KStr (s : string).

#[global] Instance spec_float_eq_dec : EqDecision spec_float.
Proof. solve_decision. Defined.
#[global] Instance pykey_eq_dec : EqDecision pykey.
Proof. solve_decision. Defined.

Definition pykey_code (k : pykey)
  : unit + Z + (bool + bool + unit + bool * positive * Z) + string :=
  match k with
  | KNone => inl (inl (inl ()))
  | KInt z => inl (inl (inr z))
  | KFloat (S754_zero s) => inl (inr (inl (inl (inl s))))
  | KFloat (S754_infinity s) => inl (inr (inl (inl (inr s))))
  | KFloat S754_nan => inl (inr (inl (inr ())))
  | KFloat (S754_finite s m e) => inl (inr (inr (s, m, e)))
  | KStr s => inr s
  end.

Definition pykey_decode
  (c : unit + Z + (bool + bool + unit + bool * positive * Z) + string) : pykey :=
  match c with
  | inl (inl (inl _)) => KNone
  | inl (inl (inr z)) => KInt z
  | inl (inr (inl (inl (inl s)))) => KFloat (S754_zero s)
  | inl (inr (inl (inl (inr s)))) => KFloat (S754_infinity s)
  | inl (inr (inl (inr _))) => KFloat S754_nan
  | inl (inr (inr (s, m, e))) => KFloat (S754_finite s m e)
  | inr s => KStr s
  end.

#[global] Instance pykey_countable : Countable pykey.
Proof.
  apply (inj_countable' pykey_code pykey_decode).
  intros [| z | [s | s | | s m e] | s]; reflexivity.
Defined.

Definition signed (s : bool) (z : Z) : Z := if s then - z else z.

Definition float_key (f : spec_float) : pykey :=
  match f with
  | S754_zero _ => KInt 0
  | S754_finite s m e =>
      if Z.leb 0 e then KInt (signed s (Z.pos m * 2 ^ e))
      else if Z.eqb (Z.pos m mod 2 ^ (- e)) 0
           then KInt (signed s (Z.pos m / 2 ^ (- e)))
           else KFloat f
  | S754_infinity _ | S754_nan => KFloat f
  end.

(** [hash(x)]: lists and dictionaries are unhashable. *)
Definition key_of (x : json) : outcome pykey :=
  match x with
  | JNull => Returned KNone
  | JBool b => Returned (KInt (if b then 1 else 0))
  | JInt z => Returned (KInt z)
  | JFloat f => Returned (float_key f)
  | JStr s => Returned (KStr s)
  | JArr _ | JObj _ => Raised TypeError
  end.

(** ** [get_vulnerability_summary] *)

Module Summary.

(** The dictionary literal the method starts from. *)
Definition initial : gmap pykey Z :=
  <[KStr "total" := 0]>
  (<[KStr "UNKNOWN" := 0]>
  (<[KStr "LOW" := 0]>
  (<[KStr "MEDIUM" := 0]>
  (<[KStr "HIGH" := 0]>
  (<[KStr "CRITICAL" := 0]> ∅))))).

(** [d[k]] on the summary dictionary *)
Definition getitem (d : gmap pykey Z) (k : pykey) : outcome Z :=
  match d !! k with
  | Some v => Returned v
  | None => Raised KeyError
  end.

(** The body of the inner loop:
<<
    severity = vuln.get("Severity", "UNKNOWN")
    summary[severity] = summary.get(severity, 0) + 1
    summary["total"] += 1
>> *)
Definition count_vuln (summary : gmap pykey Z) (vuln : json)
  : outcome (gmap pykey Z) :=
  severity ← py_get vuln "Severity" (JStr "UNKNOWN");
  k ← key_of severity;
  let summary := <[k := default 0 (summary !! k) + 1]> summary in
  t ← getitem summary (KStr "total");
  Returned (<[KStr "total" := t + 1]> summary).

(** The body of the outer loop:
<<
    if "Vulnerabilities" in result and result["Vulnerabilities"]:
        for vuln in result["Vulnerabilities"]: ...
>> *)
Definition count_result (summary : gmap pykey Z) (result : json)
  : outcome (gmap pykey Z) :=
  present ← py_in "Vulnerabilities" result;
  if present : bool then
    vulns ← py_getitem result "Vulnerabilities";
    if truthy vulns then
      vulns ← py_getitem result "Vulnerabilities";
      entries ← py_iter vulns;
      for_each count_vuln entries summary
    else Returned summary
  else Returned summary.

Definition get_vulnerability_summary (scan_results : json)
  : outcome (gmap pykey Z) :=
  let summary := initial in
  if negb (truthy scan_results) then Returned summary
  else
    present ← py_in "Results" scan_results;
    if negb present then Returned summary
    else
      results ← py_getitem scan_results "Results";
      targets ← py_iter results;
      for_each count_result targets summary.

(** Reading a bucket of a returned summary. *)
Definition bucket (label : string) (summary : gmap pykey Z) : Z :=
  default 0 (summary !! KStr label).

Definition five_labels : list string :=
  ["CRITICAL"; "HIGH"; "MEDIUM"; "LOW"; "UNKNOWN"].

Definition sum_of_buckets (summary : gmap pykey Z) : Z :=
  bucket "CRITICAL" summary + bucket "HIGH" summary + bucket "MEDIUM" summary
  + bucket "LOW" summary + bucket "UNKNOWN" summary.

(** *** The shape of a structured scan result

    The scanner's report is a mapping whose optional ["Results"] entry is a
    list of targets; a target is a mapping whose optional
    ["Vulnerabilities"] entry is a list of vulnerability entries (or
    [null]); an entry is a mapping whose optional ["Severity"] is a string
    accepted by [ok]. *)

Definition known_severity (s : string) : bool :=
  existsb (String.eqb s) five_labels.

Definition not_total (s : string) : bool := negb (String.eqb s "total").

Definition entry_shape (ok : string → bool) (vuln : json) : bool :=
  match vuln with
  | JObj items =>
      match dict_lookup "Severity" items with
      | None => true
      | Some (JStr s) => ok s
      | Some _ => false
      end
  | _ => false
  end.

Definition target_shape (ok : string → bool) (target : json) : bool :=
  match target with
  | JObj items =>
      match dict_lookup "Vulnerabilities" items with
      | None | Some JNull => true
      | Some (JArr vulns) => forallb (entry_shape ok) vulns
      | Some _ => false
      end
  | _ => false
  end.

Definition report_shape (ok : string → bool) (scan_results : json) : bool :=
  match scan_results with
  | JObj items =>
      match dict_lookup "Results" items with
      | None => true
      | Some (JArr targets) => forallb (target_shape ok) targets
      | Some _ => false
      end
  | _ => false
  end.

(** A well-formed result: every severity is one of the five labels, or
    absent. *)
Definition well_formed : json → bool := report_shape known_severity.

(** The vulnerability entries of one target, and of all targets. *)
Definition target_entries (target : json) : list json :=
  match target with
  | JObj items =>
      match dict_lookup "Vulnerabilities" items with
      | Some (JArr vulns) => vulns
      | _ => []
      end
  | _ => []
  end.

Definition vuln_entries (scan_results : json) : list json :=
  match scan_results with
  | JObj items =>
      match dict_lookup "Results" items with
      | Some (JArr targets) => concat (map target_entries targets)
      | _ => []
      end
  | _ => []
  end.

(** The label under which an entry reports its severity; an entry with no
    ["Severity"] key reports none and falls to ["UNKNOWN"]. *)
Definition severity_label (vuln : json) : string :=
  match vuln with
  | JObj items =>
      match dict_lookup "Severity" items with
      | Some (JStr s) => s
      | _ => "UNKNOWN"
      end
  | _ => "UNKNOWN"
  end.

Definition has_label (s : string) (vuln : json) : bool :=
  String.eqb (severity_label vuln) s.

Definition count_label (s : string) (entries : list json) : nat :=
  length (List.filter (has_label s) entries).

(** The six keys of the dictionary literal. *)
Definition fixed_keys : list string := (five_labels ++ ["total"])%list.

(** The all-zero summary: the six fixed keys, each bound to [0], and no
    other key. *)
Definition all_zero (summary : gmap pykey Z) : Prop :=
  ∀ k : pykey,
    summary !! k
    = if bool_decide (k ∈ KStr <$> fixed_keys) then Some 0%Z else None.

(** The invariant of the two loops: the fixed keys are present and no
    count is negative. *)
Definition sound (m : gmap pykey Z) : Prop :=
  (∀ l, In l fixed_keys → is_Some (m !! KStr l)) ∧
  (∀ (k : pykey) (v : Z), m !! k = Some v → (0 ≤ v)%Z).

(** [m'] is [m] after the entries [vs] were counted: the total grew by
    their number, and every other label by the number of entries that
    report it. *)
Definition counts_from (m : gmap pykey Z) (vs : list json)
    (m' : gmap pykey Z) : Prop :=
  (∃ t : Z, m !! KStr "total" = Some t ∧
            m' !! KStr "total" = Some (t + Z.of_nat (length vs))%Z) ∧
  (∀ s : string, s ≠ "total" →
     default 0%Z (m' !! KStr s)
     = (default 0 (m !! KStr s) + Z.of_nat (count_label s vs))%Z).


End Summary.

(** ** The outside world *)

(** What the file system holds at [self.db_path]. *)
Inductive path_state : Type :=
| Absent
| IsFile
| IsDir (entries : list string).

Definition is_dir (p : path_state) : bool :=
  match p with IsDir _ => true | _ => false end.

(** "Has a database": the directory exists and has at least one entry. *)
Definition has_database (p : path_state) : bool :=
  match p with IsDir (_ :: _) => true | _ => false end.

Inductive level : Type := INFO | WARNING | ERROR.

(** One call of the logger.  The message is [text] followed, when [exc] is
    given, by [str] of that exception. *)
Record log_record : Type := LogRecord {
  lvl : level;
  text : string;
  exc : option exn
}.

(** The [CompletedProcess] of [subprocess.run(..., capture_output=True)]. *)
Record completed : Type := Completed {
  returncode : Z;
  stdout : string;
  stderr : string
}.

(** The state the methods act on: the database directory, the files
    written under the results directory, every command line handed to
    [subprocess.run] (oldest first) and the log (oldest first). *)
Record state : Type := State {
  st_db : path_state;
  st_files : gmap string string;
  st_invoked : list (list string);
  st_log : list log_record
}.

Definition set_db (p : path_state) (s : state) : state :=
  State p (st_files s) (st_invoked s) (st_log s).
Definition add_file (path content : string) (s : state) : state :=
  State (st_db s) (<[path := content]> (st_files s)) (st_invoked s) (st_log s).
Definition add_invoked (cmd : list string) (s : state) : state :=
  State (st_db s) (st_files s) (st_invoked s ++ [cmd])%list (st_log s).
Definition add_log (r : log_record) (s : state) : state :=
  State (st_db s) (st_files s) (st_invoked s) (st_log s ++ [r])%list.

(** An image object of the container-runtime client. *)
Record image : Type := Image {
  image_id : string;
  image_tags : list string;
  image_attrs : list (string * json)
}.

(** The client handle; [images_list] is the answer of
    [docker_client.images.list()]. *)
Record DockerClient : Type := Client {
  images_list : outcome (list image)
}.

(** The answers of the programs and libraries the scanner calls.
    - [run_process s cmd]: what launching [cmd] in state [s] gives (a
      completed process, or the exception of a failed launch) and what it
      leaves at the database path;
    - [json_loads]: the decoder of the [json] module;
    - [open_w s path]: the exception of [open(path, 'w')], if any;
    - [rmtree_fails s]: when [shutil.rmtree] gives up, its exception and
      the entries it leaves in the directory;
    - [joinpath]: [pathlib]'s [/];
    - [base_dir]: the directory of the script;
    - [from_env]: [docker.from_env()];
    - [path_str p]: the string of [Path(p)], that is [p] normalised;
    - [mkdir_fails path]: the exception of
      [Path(path).mkdir(parents=True, exist_ok=True)] in the constructor,
      if any (for the database path: of creating it where nothing
      stands). *)
Record Env : Type := {
  run_process : state → list string → outcome completed * path_state;
  json_loads : string → outcome json;
  open_w : state → string → option exn;
  rmtree_fails : state → option (exn * list string);
  joinpath : string → string → string;
  base_dir : string;
  from_env : outcome DockerClient;
  path_str : string → string;
  mkdir_fails : string → option exn
}.

(** The fields of a [TrivyOfflineScanner] instance. *)
Record scanner : Type := Scanner {
  db_path : string;
  cache_path : string;
  results_dir : string;
  docker_client : option DockerClient
}.

(** ** The monad of the methods *)

Definition M (A : Type) : Type := state → outcome A * state.

#[global] Instance M_ret : MRet M := fun A a s => (Returned a, s).
#[global] Instance M_bind : MBind M := fun A B f c s =>
  match c s with
  | (Returned a, s') => f a s'
  | (Raised e, s') => (Raised e, s')
  end.

Definition lift {A} (c : outcome A) : M A := fun s => (c, s).

(** [try: body / except <catches> as e: handler e]; what [body] did to the
    state before it raised stays done. *)
Definition try_except {A} (body : M A) (catches : exn → bool)
    (handler : exn → M A) : M A := fun s =>
  match body s with
  | (Returned a, s') => (Returned a, s')
  | (Raised e, s') => if catches e then handler e s' else (Raised e, s')
  end.

Definition any_exception (_ : exn) : bool := true.

Definition logger (l : level) (msg : string) (e : option exn) : M unit :=
  fun s => (Returned tt, add_log (LogRecord l msg e) s).

Section Methods.

Context (E : Env).

(** [subprocess.run(cmd, capture_output=True)], with [check=True] when
    [check] is set: a non-zero exit status then raises. *)
Definition subprocess_run (check : bool) (cmd : list string) : M completed :=
  fun s =>
    let '(o, p) := run_process E s cmd in
    let s' := set_db p (add_invoked cmd s) in
    match o with
    | Raised e => (Raised e, s')
    | Returned r =>
        if check && negb (Z.eqb (returncode r) 0)
        then (Raised (CalledProcessError cmd (returncode r)), s')
        else (Returned r, s')
    end.

(** [self.db_path.exists()] *)
Definition path_exists : M bool := fun s =>
  (Returned (match st_db s with Absent => false | _ => true end), s).

(** [any(self.db_path.iterdir())] *)
Definition any_iterdir : M bool := fun s =>
  match st_db s with
  | IsDir entries => (Returned (match entries with [] => false | _ => true end), s)
  | IsFile => (Raised NotADirectoryError, s)
  | Absent => (Raised (OSError "No such file or directory"), s)
  end.

(** [self.db_path.mkdir(parents=True, exist_ok=True)] as [update_database]
    calls it, right after the deletion: nothing to do for a directory, an
    error for a regular file; creating the directory that was just deleted
    is taken to succeed. *)
Definition mkdir : M unit := fun s =>
  match st_db s with
  | Absent => (Returned tt, set_db (IsDir []) s)
  | IsDir _ => (Returned tt, s)
  | IsFile => (Raised FileExistsError, s)
  end.

(** [shutil.rmtree(self.db_path)]: the directory itself goes last, so a
    failure leaves it in place with what was not yet removed. *)
Definition rmtree : M unit := fun s =>
  match st_db s with
  | IsDir _ =>
      match rmtree_fails E s with
      | None => (Returned tt, set_db Absent s)
      | Some (e, remaining) => (Raised e, set_db (IsDir remaining) s)
      end
  | IsFile => (Raised NotADirectoryError, s)
  | Absent => (Raised (OSError "No such file or directory"), s)
  end.

(** [with open(path, 'w') as f: f.write(content)] *)
Definition write_file (path content : string) : M unit := fun s =>
  match open_w E s path with
  | Some e => (Raised e, s)
  | None => (Returned tt, add_file path content s)
  end.

(** [Path(arg) if arg else self.base_dir / name] *)
Definition chosen_path (arg : option string) (name : string) : string :=
  match arg with
  | Some p =>
      if String.eqb p "" then joinpath E (base_dir E) name else path_str E p
  | None => joinpath E (base_dir E) name
  end.

(** [self.db_path.mkdir(parents=True, exist_ok=True)] in the constructor:
    nothing to do for a directory, an error for a regular file, and where
    nothing stands the directory is created unless the environment
    refuses. *)
Definition make_db_dir (path : string) : M unit := fun s =>
  match st_db s with
  | IsDir _ => (Returned tt, s)
  | IsFile => (Raised FileExistsError, s)
  | Absent =>
      match mkdir_fails E path with
      | Some e => (Raised e, s)
      | None => (Returned tt, set_db (IsDir []) s)
      end
  end.

(** The same call for a directory that the state does not track. *)
Definition make_dir (path : string) : M unit := fun s =>
  match mkdir_fails E path with
  | Some e => (Raised e, s)
  | None => (Returned tt, s)
  end.

(** [__init__]: the paths are chosen, the three directories are created
    in the order database, cache, results, and the client handle is taken
    from the environment, [None] (with a warning) when that fails. *)
Definition init (db_path_arg cache_path_arg : option string) : M scanner :=
  let db := chosen_path db_path_arg "trivy-db" in
  let cache := chosen_path cache_path_arg "trivy-cache" in
  let results := joinpath E (base_dir E) "scan-results" in
  make_db_dir db;;
  make_dir cache;;
  make_dir results;;
  match from_env E with
  | Returned c => mret (Scanner db cache results (Some c))
  | Raised e =>
      logger WARNING "Docker client initialization failed: " (Some e);;
      mret (Scanner db cache results None)
  end.

Context (self : scanner).

Definition pull_cmd : list string :=
  ["docker"; "pull"; "aquasec/trivy-db:latest"].

Definition extract_cmd : list string :=
  ["docker"; "run"; "--rm";
   "-v"; db_path self +:+ ":/output";
   "aquasec/trivy-db:latest";
   "sh"; "-c"; "cp -r /trivy-db/* /output/"].

Definition setup_database : M bool :=
  try_except
    (logger INFO "Setting up Trivy database for offline use..." None;;
     logger INFO "Pulling trivy-db image..." None;;
     subprocess_run true pull_cmd;;
     logger INFO "Extracting database files..." None;;
     subprocess_run true extract_cmd;;
     logger INFO "Database setup complete!" None;;
     mret true)
    is_CalledProcessError
    (fun e => logger ERROR "Failed to setup database: " (Some e);; mret false).

(** The part of [update_database] that stands before the extraction. *)
Definition clear_database : M unit :=
  logger INFO "Updating Trivy database..." None;;
  subprocess_run true pull_cmd;;
  ex ← path_exists;
  if ex : bool then rmtree;; mkdir else mret tt.

Definition update_handler (e : exn) : M bool :=
  logger ERROR "Failed to update database: " (Some e);; mret false.

Definition update_database : M bool :=
  try_except (clear_database;; setup_database) any_exception update_handler.

(** [if severity:] and [if vuln_type:] hold for a list that is given and
    not empty; [if output_file:] for a string that is given and not
    empty. *)
Definition given_list (o : option (list string)) : bool :=
  match o with Some (_ :: _) => true | _ => false end.

Definition given_str (o : option string) : bool :=
  match o with Some s => negb (String.eqb s "") | None => false end.

Definition scan_cmd (image format : string)
    (severity vuln_type : option (list string)) : list string :=
  let cmd :=
    ["docker"; "run"; "--rm";
     "-v"; "/var/run/docker.sock:/var/run/docker.sock:ro";
     "-v"; cache_path self +:+ ":/root/.cache/trivy";
     "-v"; db_path self +:+ ":/trivy-db:ro";
     "-e"; "TRIVY_CACHE_DIR=/root/.cache/trivy";
     "-e"; "TRIVY_DB_REPOSITORY=file:///trivy-db";
     "-e"; "TRIVY_SKIP_UPDATE=true";
     "aquasec/trivy:latest";
     "image";
     "--format"; format] in
  let cmd :=
    if given_list severity
    then (cmd ++ ["--severity"; String.concat "," (default [] severity)])%list
    else cmd in
  let cmd :=
    if given_list vuln_type
    then (cmd ++ ["--vuln-type"; String.concat "," (default [] vuln_type)])%list
    else cmd in
  (cmd ++ [image])%list.

(** The [try] block of [scan_image].  The value returned is a Python
    value: [JNull] is [None], a [JStr] the raw text, anything else what the
    decoder gave. *)
Definition scan_body (image format : string)
    (severity : option (list string)) (output_file : option string)
    (vuln_type : option (list string)) : M json :=
  let cmd := scan_cmd image format severity vuln_type in
  result ← subprocess_run false cmd;
  if negb (Z.eqb (returncode result) 0) then
    logger ERROR ("Scan failed: " +:+ stderr result) None;;
    mret JNull
  else
    (if given_str output_file then
       let output_path :=
         joinpath E (results_dir self) (default "" output_file) in
       write_file output_path (stdout result);;
       logger INFO ("Results saved to: " +:+ output_path) None
     else mret tt);;
    if String.eqb format "json"
    then lift (json_loads E (stdout result))
    else mret (JStr (stdout result)).

(** The handler [except Exception as e] of [scan_image]. *)
Definition scan_handler (e : exn) : M json :=
  logger ERROR "Scan failed: " (Some e);; mret JNull.

Definition scan_image (image format : string)
    (severity : option (list string)) (output_file : option string)
    (vuln_type : option (list string)) : M json :=
  ex ← path_exists;
  missing ← (if negb ex then mret true
             else some ← any_iterdir; mret (negb some));
  if missing : bool then
    logger ERROR "Trivy database not found. Please run setup_database() first." None;;
    mret JNull
  else
    try_except (scan_body image format severity output_file vuln_type)
               any_exception scan_handler.

(** The loop of [scan_multiple_images], with its dictionary [results]. *)
Fixpoint scan_each (images : list string) (format : string)
    (severity : option (list string)) (results : gmap string json)
  : M (gmap string json) :=
  match images with
  | [] => mret results
  | image :: rest =>
      logger INFO ("Scanning " +:+ image +:+ "...") None;;
      result ← scan_image image format severity None None;
      scan_each rest format severity (<[image := result]> results)
  end.

Definition scan_multiple_images (images : list string) (format : string)
    (severity : option (list string)) : M (gmap string json) :=
  scan_each images format severity ∅.

(** One dictionary of the list that [list_local_images] returns. *)
Record image_record : Type := ImageRecord {
  rec_id : string;
  rec_tag : string;
  rec_size : json;
  rec_created : json
}.

Definition attr (img : image) (k : string) : outcome json :=
  match dict_lookup k (image_attrs img) with
  | Some v => Returned v
  | None => Raised KeyError
  end.

(** The inner loop over the tags of one image. *)
Definition append_tag (img : image) (image_list : list image_record)
    (tag : string) : outcome (list image_record) :=
  size ← attr img "Size";
  created ← attr img "Created";
  Returned (image_list ++
            [ImageRecord (substring 0 12 (image_id img)) tag size created])%list.

Definition append_image (image_list : list image_record) (img : image)
  : outcome (list image_record) :=
  let tags :=
    match image_tags img with [] => ["<none>"] | tags => tags end in
  for_each (append_tag img) tags image_list.

Definition list_local_images : M (list image_record) :=
  match docker_client self with
  | None =>
      logger ERROR "Docker client not available" None;;
      mret []
  | Some client =>
      try_except
        (images ← lift (images_list client);
         lift (for_each append_image images []))
        any_exception
        (fun e => logger ERROR "Failed to list images: " (Some e);; mret [])
  end.

End Methods.

(** ** Vocabulary for the statements *)

(** In the command line [cmd] the argument [value] stands right after the
    option [flag]. *)
Definition adjacent (flag value : string) (cmd : list string) : Prop :=
  ∃ before after : list string, cmd = (before ++ flag :: value :: after)%list.

(** The record that [scan_multiple_images] logs before it scans [image]. *)
Definition scanning_record (image : string) : log_record :=
  LogRecord INFO ("Scanning " +:+ image +:+ "...") None.

(** [scans E self format severity s images values s']: started in [s], one
    scan after the other of [images], in that order, each announced in the
    log, returned [values] and ended in [s']. *)
Inductive scans (E : Env) (self : scanner) (format : string)
    (severity : option (list string))
  : state → list string → list json → state → Prop :=
| scans_nil s : scans E self format severity s [] [] s
| scans_cons s image rest value s1 values s2 :
    scan_image E self image format severity None None
      (add_log (scanning_record image) s) = (Returned value, s1) →
    scans E self format severity s1 rest values s2 →
    scans E self format severity s (image :: rest) (value :: values) s2.

(** [results[image] = value] for the pairs of a list, from left to
    right. *)
Definition store_all (pairs : list (string * json))
    (results : gmap string json) : gmap string json :=
  fold_left (fun m kv => <[kv.1 := kv.2]> m) pairs results.

(** The environment never leaves a regular file at the database path. *)
Definition keeps_no_file (E : Env) : Prop :=
  ∀ s cmd, st_db s ≠ IsFile → (run_process E s cmd).2 ≠ IsFile.

(** No process of the environment removes the database directory. *)
Definition keeps_directory (E : Env) : Prop :=
  ∀ s cmd, is_dir (st_db s) = true → is_dir (run_process E s cmd).2 = true.

(** The first pull of [update_database] succeeded in [E] from [s]. *)
Definition pull_state (s : state) : state :=
  add_log (LogRecord INFO "Updating Trivy database..." None) s.

Definition pull_succeeds (E : Env) (s : state) : bool :=
  match (run_process E (pull_state s) pull_cmd).1 with
  | Returned r => Z.eqb (returncode r) 0
  | Raised _ => false
  end.

(** The state right after that pull. *)
Definition pulled (E : Env) (s : state) : state :=
  set_db (run_process E (pull_state s) pull_cmd).2
         (add_invoked pull_cmd (pull_state s)).

(** A computation that leaves a database directory in place. *)
Definition dir_stays {A} (c : M A) : Prop :=
  ∀ s, is_dir (st_db s) = true → is_dir (st_db (c s).2) = true.

(** ** Sample inputs *)

Module Samples.

Definition vuln (id severity : string) : json :=
  JObj [("VulnerabilityID", JStr id); ("Severity", JStr severity)].

(** A report with one target and three entries. *)
Definition report_nginx : json :=
  JObj [("SchemaVersion", JInt 2);
        ("ArtifactName", JStr "nginx:latest");
        ("Results",
         JArr [JObj [("Target", JStr "nginx:latest (debian 12.5)");
                     ("Vulnerabilities",
                      JArr [vuln "CVE-2024-0001" "CRITICAL";
                            vuln "CVE-2024-0002" "CRITICAL";
                            vuln "CVE-2024-0003" "LOW"])]])].

(** An entry that reports a label outside the five. *)
Definition report_negligible : json :=
  JObj [("SchemaVersion", JInt 2);
        ("Results",
         JArr [JObj [("Target", JStr "alpine:3.19");
                     ("Vulnerabilities",
                      JArr [vuln "CVE-2023-1111" "NEGLIGIBLE"])]])].

Definition summary_negligible : gmap pykey Z :=
  <[KStr "total" := 1]> (<[KStr "NEGLIGIBLE" := 1]> Summary.initial).

(** A mapping whose ["Results"] is [null]. *)
Definition report_null_results : json :=
  JObj [("SchemaVersion", JInt 2); ("Results", JNull)].

(** A mapping whose ["Results"] is a number. *)
Definition report_numeric_results : json :=
  JObj [("SchemaVersion", JInt 2); ("Results", JInt 404)].

(** A mapping with no ["Results"] at all. *)
Definition report_no_results : json :=
  JObj [("SchemaVersion", JInt 2); ("ArtifactName", JStr "scratch")].

(** A scanner instance and a state with a populated database. *)
Definition self0 : scanner :=
  Scanner "/opt/scanner/trivy-db" "/opt/scanner/trivy-cache"
          "/opt/scanner/scan-results" None.

Definition state0 : state :=
  State (IsDir ["db"; "metadata.json"]) ∅ [] [].

Definition state_empty_db : state := State (IsDir []) ∅ [] [].

(** A decoder that knows two documents and rejects the rest the way
    [json.loads] rejects a text that does not start a JSON value. *)
Definition loads_sample (text : string) : outcome json :=
  if String.eqb text "{}" then Returned (JObj [])
  else if String.eqb text "null" then Returned JNull
  else Raised (JSONDecodeError "Expecting value: line 1 column 1 (char 0)").

(** An environment in which every process ends with [exit_code], printing
    [out] and [err], and leaves the database directory as it was. *)
Definition env_fixed (exit_code : Z) (out err : string) : Env :=
  {| run_process := fun s _ => (Returned (Completed exit_code out err), st_db s);
     json_loads := loads_sample;
     open_w := fun _ _ => None;
     rmtree_fails := fun _ => None;
     joinpath := fun a b => a +:+ "/" +:+ b;
     base_dir := "/opt/scanner";
     from_env := Raised (DockerException "Error while fetching server API version");
     path_str := fun p => p;
     mkdir_fails := fun _ => None |}.

(** The scanner process exits with status 0 but prints a proxy's error
    page instead of a report. *)
Definition env_garbled : Env :=
  env_fixed 0 "<html>502 Bad Gateway</html>" "".

(** The scanner process prints an empty report. *)
Definition env_empty_report : Env := env_fixed 0 "{}" "".

(** The scanner process fails. *)
Definition env_scan_fails : Env :=
  env_fixed 1 "" "FATAL image scan error".

(** An environment in which pulling fails and every other process
    succeeds. *)
Definition env_pull_fails : Env :=
  {| run_process := fun s cmd =>
       (Returned (Completed (if bool_decide (cmd !! 1%nat = Some "pull")
                             then 1 else 0) "" ""), st_db s);
     json_loads := loads_sample;
     open_w := fun _ _ => None;
     rmtree_fails := fun _ => None;
     joinpath := fun a b => a +:+ "/" +:+ b;
     base_dir := "/opt/scanner";
     from_env := Raised (DockerException "Error while fetching server API version");
     path_str := fun p => p;
     mkdir_fails := fun _ => None |}.

(** A runtime that reports one image with two tags. *)
Definition client_two_tags : DockerClient :=
  Client (Returned
    [Image "sha256:4bb46517cac3" ["a:1"; "a:2"]
           [("Size", JInt 10485760);
            ("Created", JStr "2024-03-01T10:00:00Z")]]).

Definition self_with_client : scanner :=
  Scanner "/opt/scanner/trivy-db" "/opt/scanner/trivy-cache"
          "/opt/scanner/scan-results" (Some client_two_tags).

End Samples.

(** ** The [scan] command of [main] *)

(** What the command line adds to the state: the objects handed to
    [print], oldest first. *)
Record console : Type := Console {
  con_state : state;
  con_out : list json
}.

Definition P (A : Type) : Type := console → outcome A * console.

#[global] Instance P_ret : MRet P := fun A a k => (Returned a, k).
#[global] Instance P_bind : MBind P := fun A B f c k =>
  match c k with
  | (Returned a, k') => f a k'
  | (Raised e, k') => (Raised e, k')
  end.

(** A method of the scanner, run from the command line. *)
Definition call {A} (c : M A) : P A := fun k =>
  match c (con_state k) with
  | (o, s') => (o, Console s' (con_out k))
  end.

Definition eval {A} (c : outcome A) : P A := fun k => (c, k).

Definition print (x : json) : P unit := fun k =>
  (Returned tt, Console (con_state k) (con_out k ++ [x])%list).

Definition newline : string := String (Ascii.ascii_of_nat 10) EmptyString.

Section Main.

Context (E : Env).

(** [print(f"<label>{summary[key]}")] *)
Definition print_count (label : string) (summary : gmap pykey Z)
    (key : string) : P unit :=
  n ← eval (Summary.getitem summary (KStr key));
  print (JStr (label +:+ pretty n)).

(** The body of [main] for the command [scan], from the construction of
    the scanner on; the arguments are the fields of the parsed command
    line. *)
Definition main_scan (image format : string)
    (severity : option (list string)) (output : option string) : P unit :=
  scanner ← call (init E None None);
  result ← call (scan_image E scanner image format severity output None);
  if String.eqb format "json" && truthy result then
    summary ← eval (Summary.get_vulnerability_summary result);
    print (JStr (newline +:+ "Vulnerability Summary for " +:+ image +:+ ":"));;
    print_count "  CRITICAL: " summary "CRITICAL";;
    print_count "  HIGH:     " summary "HIGH";;
    print_count "  MEDIUM:   " summary "MEDIUM";;
    print_count "  LOW:      " summary "LOW";;
    print_count "  TOTAL:    " summary "total"
  else if String.eqb format "table" && truthy result then
    print result
  else mret tt.

End Main.

(** ** More vocabulary for the statements *)

(** The exceptions of an operation applied to a value of the wrong
    type. *)
Definition wrong_type (e : exn) : Prop := e = TypeError ∨ e = AttributeError.

(** Counting one entry under [label], and a list of labels from left to
    right. *)
Definition tally_step (m : gmap pykey Z) (label : string) : gmap pykey Z :=
  let m1 := <[KStr label := (default 0 (m !! KStr label) + 1)%Z]> m in
  <[KStr "total" := (default 0 (m1 !! KStr "total") + 1)%Z]> m1.

Definition tally (labels : list string) (m : gmap pykey Z) : gmap pykey Z :=
  fold_left tally_step labels m.

(** ["Results"] does not occur in [x]: [x] is a mapping without that key,
    a list without that element, or a string without that part.  Of a
    number, a boolean or [None] the question cannot be asked. *)
Definition lacks_results (x : json) : bool :=
  match x with
  | JObj items => negb (bool_decide (is_Some (dict_lookup "Results" items)))
  | JArr elems => negb (existsb (is_str "Results") elems)
  | JStr s => negb (str_contains "Results" s)
  | JNull | JBool _ | JInt _ | JFloat _ => false
  end.

(** The three directories of the constructor can be created. *)
Definition dirs_can_be_made (E : Env) (db_path_arg cache_path_arg : option string)
  : Prop :=
  mkdir_fails E (chosen_path E db_path_arg "trivy-db") = None ∧
  mkdir_fails E (chosen_path E cache_path_arg "trivy-cache") = None ∧
  mkdir_fails E (joinpath E (base_dir E) "scan-results") = None.

(** A target that lists no vulnerability: the key is missing or its value
    is falsy. *)
Definition clean_target (target : json) : bool :=
  match target with
  | JObj items =>
      match dict_lookup "Vulnerabilities" items with
      | None => true
      | Some v => negb (truthy v)
      end
  | _ => false
  end.

(** The state in which the process started by [cmd] in [s] has ended. *)
Definition scanned (E : Env) (cmd : list string) (s : state) : state :=
  set_db (run_process E s cmd).2 (add_invoked cmd s).

(** The results file of a scan. *)
Definition output_path (E : Env) (self : scanner) (output_file : option string)
  : string :=
  joinpath E (results_dir self) (default "" output_file).

(** The results file, if one was asked for, can be opened for writing once
    the process has ended. *)
Definition can_save (E : Env) (self : scanner) (cmd : list string)
    (output_file : option string) (s : state) : Prop :=
  given_str output_file = true →
  open_w E (scanned E cmd s) (output_path E self output_file) = None.

(** No process of the environment empties a populated database
    directory. *)
Definition keeps_database (E : Env) : Prop :=
  ∀ s cmd, has_database (st_db s) = true →
           has_database (run_process E s cmd).2 = true.

(** The states in which [setup_database] starts its two processes. *)
Definition setup_pull_state (s : state) : state :=
  add_log (LogRecord INFO "Pulling trivy-db image..." None)
    (add_log (LogRecord INFO "Setting up Trivy database for offline use..."
                None) s).

Definition setup_extract_state (E : Env) (s : state) : state :=
  add_log (LogRecord INFO "Extracting database files..." None)
    (scanned E pull_cmd (setup_pull_state s)).

(** A process ended with exit status 0. *)
Definition exits_zero (E : Env) (s : state) (cmd : list string) : bool :=
  match (run_process E s cmd).1 with
  | Returned r => Z.eqb (returncode r) 0
  | Raised _ => false
  end.

(** The records that one image contributes to the listing. *)
Definition records_of (img : image) (size created : json)
  : list image_record :=
  map (fun tag => ImageRecord (substring 0 12 (image_id img)) tag size created)
      (match image_tags img with [] => ["<none>"] | tags => tags end).

Definition has_attrs (img : image) : bool :=
  bool_decide (is_Some (dict_lookup "Size" (image_attrs img))) &&
  bool_decide (is_Some (dict_lookup "Created" (image_attrs img))).

Definition image_records (img : image) : list image_record :=
  records_of img
    (default JNull (dict_lookup "Size" (image_attrs img)))
    (default JNull (dict_lookup "Created" (image_attrs img))).

(** ** More sample inputs *)

Module MoreSamples.

Import Samples.

(** The same three entries as [report_nginx], in another order and in two
    targets. *)
Definition report_nginx_regrouped : json :=
  JObj [("SchemaVersion", JInt 2);
        ("Results",
         JArr [JObj [("Target", JStr "usr/bin/app");
                     ("Vulnerabilities", JArr [vuln "CVE-2024-0003" "LOW"])];
               JObj [("Target", JStr "nginx:latest (debian 12.5)");
                     ("Vulnerabilities",
                      JArr [vuln "CVE-2024-0002" "CRITICAL";
                            vuln "CVE-2024-0001" "CRITICAL"])]])].

(** A report whose targets list no vulnerability. *)
Definition report_clean : json :=
  JObj [("SchemaVersion", JInt 2);
        ("Results",
         JArr [JObj [("Target", JStr "alpine:3.19")];
               JObj [("Target", JStr "app/go.sum");
                     ("Vulnerabilities", JNull)]])].

(** An environment in which [docker] cannot be started. *)
Definition env_no_docker : Env :=
  {| run_process := fun s _ =>
       (Raised (OSError "[Errno 2] No such file or directory: 'docker'"),
        st_db s);
     json_loads := loads_sample;
     open_w := fun _ _ => None;
     rmtree_fails := fun _ => None;
     joinpath := fun a b => a +:+ "/" +:+ b;
     base_dir := "/opt/scanner";
     from_env := Raised (DockerException "Error while fetching server API version");
     path_str := fun p => p;
     mkdir_fails := fun _ => None |}.

(** An environment in which the results directory is read-only. *)
Definition env_read_only : Env :=
  {| run_process := fun s _ => (Returned (Completed 0 "{}" ""), st_db s);
     json_loads := loads_sample;
     open_w := fun _ _ => Some (OSError "[Errno 30] Read-only file system");
     rmtree_fails := fun _ => None;
     joinpath := fun a b => a +:+ "/" +:+ b;
     base_dir := "/opt/scanner";
     from_env := Raised (DockerException "Error while fetching server API version");
     path_str := fun p => p;
     mkdir_fails := fun _ => None |}.

(** An environment in which the old database cannot be deleted. *)
Definition env_rmtree_fails : Env :=
  {| run_process := fun s _ => (Returned (Completed 0 "" ""), st_db s);
     json_loads := loads_sample;
     open_w := fun _ _ => None;
     rmtree_fails := fun _ =>
       Some (OSError "[Errno 13] Permission denied: 'db'", ["db"]);
     joinpath := fun a b => a +:+ "/" +:+ b;
     base_dir := "/opt/scanner";
     from_env := Raised (DockerException "Error while fetching server API version");
     path_str := fun p => p;
     mkdir_fails := fun _ => None |}.

(** The scanner prints the text [null]. *)
Definition env_null : Env := env_fixed 0 "null" "".

(** The scanner prints a table. *)
Definition env_table : Env :=
  env_fixed 0 "nginx:latest (debian 12.5)  Total: 0" "".

(** An image without the attribute ["Size"]. *)
Definition image_no_size : image :=
  Image "sha256:9c7a54a9a43c" ["b:1"] [("Created", JStr "2024-03-02T08:00:00Z")].

Definition image_tagged : image :=
  Image "sha256:4bb46517cac3" ["a:1"; "a:2"]
        [("Size", JInt 10485760); ("Created", JStr "2024-03-01T10:00:00Z")].

Definition image_untagged : image :=
  Image "sha256:77af4d6b9913" []
        [("Size", JInt 2048); ("Created", JStr "2024-02-11T09:30:00Z")].

Definition self_of (images : list image) : scanner :=
  Scanner "/opt/scanner/trivy-db" "/opt/scanner/trivy-cache"
          "/opt/scanner/scan-results" (Some (Client (Returned images))).

(** An environment in which the scanner succeeds and its output decodes
    to [report]. *)
Definition env_decoding (report : json) : Env :=
  {| run_process := fun s _ =>
       (Returned (Completed 0 "<the report, as JSON text>" ""), st_db s);
     json_loads := fun _ => Returned report;
     open_w := fun _ _ => None;
     rmtree_fails := fun _ => None;
     joinpath := fun a b => a +:+ "/" +:+ b;
     base_dir := "/opt/scanner";
     from_env := Raised (DockerException "Error while fetching server API version");
     path_str := fun p => p;
     mkdir_fails := fun _ => None |}.

Definition state_absent : state := State Absent ∅ [] [].

Definition state_file : state := State IsFile ∅ [] [].

End MoreSamples.

(** * Properties of [get_vulnerability_summary] *)

Section SummaryFacts.

Import Summary.

Lemma initial_fixed l : In l fixed_keys → initial !! KStr l = Some 0.
Proof.
  cbn. intros H.
  repeat (destruct H as [<- | H]; [reflexivity |]). destruct H.
Qed.

Lemma initial_other s : ¬ In s fixed_keys → initial !! KStr s = None.
Proof.
  intros H. unfold initial.
  repeat (rewrite lookup_insert_ne;
          [| intros [= <-]; apply H; cbn; tauto]).
  apply lookup_empty.
Qed.

Lemma initial_bucket s : default 0 (initial !! KStr s) = 0.
Proof.
  destruct (In_dec string_dec s fixed_keys) as [H | H].
  - by rewrite initial_fixed.
  - by rewrite initial_other.
Qed.

(** ** The fixed keys stay, with counts that never go below zero *)

Lemma sound_initial : sound initial.
Proof.
  split.
  - intros l H. rewrite initial_fixed; eauto.
  - intros k v. unfold initial. intros H.
    repeat (apply lookup_insert_Some in H as [[_ <-] | [_ H]]; [lia |]).
    by rewrite lookup_empty in H.
Qed.

Lemma sound_bump m k :
  sound m → sound (<[k := default 0 (m !! k) + 1]> m).
Proof.
  intros [Hkeys Hpos]. split.
  - intros l Hl. destruct (decide (k = KStr l)) as [-> | Hne].
    + rewrite lookup_insert_eq; eauto.
    + rewrite lookup_insert_ne; auto.
  - intros k' v H. apply lookup_insert_Some in H as [[_ <-] | [_ H]]; [| eauto].
    destruct (m !! k) as [v0 |] eqn:Hk; cbn; [| lia].
    specialize (Hpos _ _ Hk). lia.
Qed.

Lemma sound_count_vuln m vuln m' :
  sound m → count_vuln m vuln = Returned m' → sound m'.
Proof.
  intros Hm. unfold count_vuln.
  destruct (py_get vuln "Severity" (JStr "UNKNOWN")) as [sev |]; [| done].
  cbn. destruct (key_of sev) as [k |]; [| done]. cbn.
  pose proof (sound_bump m k Hm) as Hb.
  unfold getitem.
  destruct (<[k := default 0 (m !! k) + 1]> m !! KStr "total")
    as [t |] eqn:Ht; [| done].
  cbn. intros [= <-]. destruct Hb as [Hkeys Hpos]. split.
  - intros l Hl. destruct (decide (KStr "total" = KStr l)) as [<- | Hne].
    + rewrite lookup_insert_eq; eauto.
    + rewrite lookup_insert_ne; auto.
  - intros k' v H. apply lookup_insert_Some in H as [[_ <-] | [_ H]]; [| eauto].
    specialize (Hpos _ _ Ht). lia.
Qed.

Lemma sound_for_each {A} (body : gmap pykey Z → A → outcome (gmap pykey Z)) :
  (∀ m x m', sound m → body m x = Returned m' → sound m') →
  ∀ xs m m', sound m → for_each body xs m = Returned m' → sound m'.
Proof.
  intros Hbody xs. induction xs as [| x xs IH]; intros m m' Hm; cbn.
  - by intros [= <-].
  - destruct (body m x) as [m1 |] eqn:H1; [| done]. cbn. eauto.
Qed.

Lemma sound_count_result m target m' :
  sound m → count_result m target = Returned m' → sound m'.
Proof.
  intros Hm. unfold count_result.
  destruct (py_in "Vulnerabilities" target) as [[|] |]; cbn; try done.
  - destruct (py_getitem target "Vulnerabilities") as [vulns |]; cbn; [| done].
    destruct (truthy vulns).
    + destruct (py_iter vulns) as [entries |]; cbn; [| done].
      apply sound_for_each; [apply sound_count_vuln | done].
    + by intros [= <-].
  - by intros [= <-].
Qed.

Lemma sound_summary scan_results m :
  get_vulnerability_summary scan_results = Returned m → sound m.
Proof.
  unfold get_vulnerability_summary.
  destruct (negb (truthy scan_results)).
  { intros [= <-]. apply sound_initial. }
  destruct (py_in "Results" scan_results) as [[|] |]; cbn; try done.
  - destruct (py_getitem scan_results "Results") as [rs |]; cbn; [| done].
    destruct (py_iter rs) as [targets |]; cbn; [| done].
    apply sound_for_each; [apply sound_count_result | apply sound_initial].
  - intros [= <-]. apply sound_initial.
Qed.

End SummaryFacts.

(** ** What the buckets count *)

Section SummaryCounts.

Import Summary.

Lemma counts_from_nil m :
  is_Some (m !! KStr "total") → counts_from m [] m.
Proof.
  intros [t Ht]. split.
  - exists t. split; [done |]. rewrite Ht. f_equal. cbn. lia.
  - intros s _. cbn. lia.
Qed.

Lemma counts_from_app m vs1 m1 vs2 m2 :
  counts_from m vs1 m1 → counts_from m1 vs2 m2 →
  counts_from m (vs1 ++ vs2) m2.
Proof.
  intros [(t & Ht & Ht1) H1] [(t1 & Ht1' & Ht2) H2]. split.
  - exists t. split; [done |].
    rewrite Ht1 in Ht1'. injection Ht1' as <-.
    rewrite Ht2. f_equal. rewrite length_app. lia.
  - intros s Hs. rewrite (H2 s Hs), (H1 s Hs).
    unfold count_label. rewrite List.filter_app, length_app. lia.
Qed.

Lemma counts_from_total m vs m' :
  counts_from m vs m' → is_Some (m' !! KStr "total").
Proof. intros [(t & _ & H) _]. eauto. Qed.

Section Shape.

Variable ok : string → bool.
Hypothesis ok_not_total : ∀ s, ok s = true → s ≠ "total".

Lemma count_vuln_entry m vuln :
  entry_shape ok vuln = true → is_Some (m !! KStr "total") →
  ∃ m', count_vuln m vuln = Returned m' ∧ counts_from m [vuln] m'.
Proof.
  intros Hshape [t Ht].
  assert (∃ s, s ≠ "total" ∧ severity_label vuln = s ∧
               (severity ← py_get vuln "Severity" (JStr "UNKNOWN");
                key_of severity) = Returned (KStr s)) as (s & Hs & Hlabel & Hkey).
  { destruct vuln as [| | | | | | items]; try discriminate Hshape.
    cbn in *. destruct (dict_lookup "Severity" items) as [[| | | | s | |] |];
      try discriminate Hshape.
    - exists s. auto.
    - exists "UNKNOWN". split; [discriminate | done]. }
  unfold count_vuln.
  destruct (py_get vuln "Severity" (JStr "UNKNOWN")) as [sev |];
    cbn in Hkey |- *; [| discriminate Hkey].
  rewrite Hkey. cbn. unfold getitem.
  assert (KStr s ≠ KStr "total") as Hne by congruence.
  rewrite lookup_insert_ne, Ht by done. cbn.
  eexists. split; [reflexivity |]. split.
  - exists t. split; [done |]. rewrite lookup_insert_eq. done.
  - intros s' Hs'. rewrite lookup_insert_ne by congruence.
    unfold count_label, has_label. cbn. rewrite Hlabel.
    destruct (String.eqb_spec s s') as [<- | Hdiff].
    + rewrite lookup_insert_eq. cbn. lia.
    + rewrite lookup_insert_ne by congruence. cbn. lia.
Qed.

Lemma count_vuln_entries vs : ∀ m,
  forallb (entry_shape ok) vs = true → is_Some (m !! KStr "total") →
  ∃ m', for_each count_vuln vs m = Returned m' ∧ counts_from m vs m'.
Proof.
  induction vs as [| v vs IH]; intros m Hshape Ht.
  - exists m. split; [done | by apply counts_from_nil].
  - cbn in Hshape. apply andb_prop in Hshape as [Hv Hvs].
    destruct (count_vuln_entry m v Hv Ht) as (m1 & Hrun1 & Hc1).
    destruct (IH m1 Hvs (counts_from_total _ _ _ Hc1)) as (m2 & Hrun2 & Hc2).
    exists m2. cbn. rewrite Hrun1. cbn. split; [done |].
    by apply (counts_from_app m [v] m1 vs m2).
Qed.

Lemma count_result_target m target :
  target_shape ok target = true → is_Some (m !! KStr "total") →
  ∃ m', count_result m target = Returned m' ∧
        counts_from m (target_entries target) m'.
Proof.
  intros Hshape Ht.
  destruct target as [| | | | | | items]; try discriminate Hshape.
  unfold count_result. cbn in *.
  destruct (dict_lookup "Vulnerabilities" items) as [[| | | | | vulns |] |];
    try discriminate Hshape; cbn.
  - exists m. split; [done | by apply counts_from_nil].
  - destruct vulns as [| v vs].
    + exists m. split; [done | by apply counts_from_nil].
    + cbn [truthy]. cbv iota. by apply count_vuln_entries.
  - exists m. split; [done | by apply counts_from_nil].
Qed.

Lemma count_result_targets targets : ∀ m,
  forallb (target_shape ok) targets = true → is_Some (m !! KStr "total") →
  ∃ m', for_each count_result targets m = Returned m' ∧
        counts_from m (concat (map target_entries targets)) m'.
Proof.
  induction targets as [| x xs IH]; intros m Hshape Ht.
  - exists m. split; [done | by apply counts_from_nil].
  - cbn in Hshape. apply andb_prop in Hshape as [Hx Hxs].
    destruct (count_result_target m x Hx Ht) as (m1 & Hrun1 & Hc1).
    destruct (IH m1 Hxs (counts_from_total _ _ _ Hc1)) as (m2 & Hrun2 & Hc2).
    exists m2. cbn. rewrite Hrun1. cbn. split; [done |].
    by eapply counts_from_app.
Qed.

Lemma summary_of_shape scan_results :
  report_shape ok scan_results = true →
  ∃ m, get_vulnerability_summary scan_results = Returned m ∧
       counts_from initial (vuln_entries scan_results) m.
Proof.
  intros Hshape.
  assert (is_Some (initial !! KStr "total")) as Ht by (by eexists).
  destruct scan_results as [| | | | | | items]; try discriminate Hshape.
  unfold get_vulnerability_summary. cbn in *.
  destruct items as [| item items'] eqn:Hitems.
  { exists initial. split; [done | by apply counts_from_nil]. }
  rewrite <- Hitems in *. replace (negb _) with false by (by subst).
  destruct (dict_lookup "Results" items) as [[| | | | | targets |] |];
    try discriminate Hshape; cbn.
  - by apply count_result_targets.
  - exists initial. split; [done | by apply counts_from_nil].
Qed.

Lemma entries_of_shape scan_results :
  report_shape ok scan_results = true →
  forallb (entry_shape ok) (vuln_entries scan_results) = true.
Proof.
  destruct scan_results as [| | | | | | items]; try done. cbn.
  destruct (dict_lookup "Results" items) as [[| | | | | targets |] |]; try done.
  induction targets as [| x xs IH]; [done |]. cbn.
  intros [Hx Hxs]%andb_prop. rewrite forallb_app, (IH Hxs), andb_true_r.
  destruct x as [| | | | | | xi]; try done. cbn in *.
  by destruct (dict_lookup "Vulnerabilities" xi) as [[| | | | | vulns |] |].
Qed.

End Shape.

Lemma known_not_total s : known_severity s = true → s ≠ "total".
Proof. intros H ->. discriminate H. Qed.

Lemma not_total_spec s : not_total s = true → s ≠ "total".
Proof. intros H ->. discriminate H. Qed.

(** Entries whose labels are among the five are split by the five
    buckets. *)
Lemma five_way_split vs :
  forallb (entry_shape known_severity) vs = true →
  length vs =
    (count_label "CRITICAL" vs + count_label "HIGH" vs
     + count_label "MEDIUM" vs + count_label "LOW" vs
     + count_label "UNKNOWN" vs)%nat.
Proof.
  induction vs as [| v vs IH]; [done |]. cbn [forallb].
  intros [Hv Hvs]%andb_prop. specialize (IH Hvs).
  assert (known_severity (severity_label v) = true) as Hk.
  { destruct v as [| | | | | | items]; try discriminate Hv. cbn in *.
    by destruct (dict_lookup "Severity" items) as [[| | | | s | |] |]. }
  unfold count_label, has_label in *. cbn [List.filter length].
  unfold known_severity in Hk. cbn in Hk.
  destruct (String.eqb_spec (severity_label v) "CRITICAL") as [-> | _];
    [cbn; lia |].
  destruct (String.eqb_spec (severity_label v) "HIGH") as [-> | _];
    [cbn; lia |].
  destruct (String.eqb_spec (severity_label v) "MEDIUM") as [-> | _];
    [cbn; lia |].
  destruct (String.eqb_spec (severity_label v) "LOW") as [-> | _];
    [cbn; lia |].
  destruct (String.eqb_spec (severity_label v) "UNKNOWN") as [_ | _];
    [cbn; lia | discriminate Hk].
Qed.

End SummaryCounts.

(** ** The claims about the summary *)

Section SummaryClaims.

Import Summary Samples.

Lemma all_zero_initial : all_zero initial.
Proof.
  intros k. case_bool_decide as Hk.
  - apply list_elem_of_fmap in Hk as (l & -> & Hl).
    apply initial_fixed. by apply list_elem_of_In.
  - unfold initial.
    repeat (rewrite lookup_insert_ne;
            [| intros <-; apply Hk; cbn; set_solver]).
    apply lookup_empty.
Qed.

(** C3.  For a well-formed structured scan result (every severity is one of
    CRITICAL, HIGH, MEDIUM, LOW, UNKNOWN, or absent) the method returns a
    summary whose [total] is the sum of the five buckets and the number of
    vulnerability entries of all targets. *)
Theorem summary_total_of_well_formed (scan_results : json) :
  well_formed scan_results = true →
  ∃ m, get_vulnerability_summary scan_results = Returned m ∧
       bucket "total" m = sum_of_buckets m ∧
       bucket "total" m = Z.of_nat (length (vuln_entries scan_results)).
Proof.
  intros Hwf.
  destruct (summary_of_shape known_severity known_not_total _ Hwf)
    as (m & Hrun & (t & Ht0 & Ht) & Hcount).
  pose proof (five_way_split _ (entries_of_shape known_severity _ Hwf)) as Hsplit.
  exists m. split; [done |].
  injection Ht0 as <-.
  assert (bucket "total" m = Z.of_nat (length (vuln_entries scan_results)))
    as Htotal by (unfold bucket; rewrite Ht; exact (Z.add_0_l _)).
  split; [| done]. rewrite Htotal. unfold sum_of_buckets, bucket.
  rewrite !Hcount by discriminate. rewrite !initial_bucket. lia.
Qed.

Lemma summary_total_of_well_formed_witness :
  well_formed report_nginx = true ∧
  ∃ m, get_vulnerability_summary report_nginx = Returned m ∧
       bucket "total" m = sum_of_buckets m ∧
       bucket "total" m = Z.of_nat (length (vuln_entries report_nginx)).
Proof.
  split; [reflexivity |].
  apply (summary_total_of_well_formed report_nginx). reflexivity.
Defined.

(** C4, as the code has it.  An input that is falsy ([None], [False],
    zero, an empty string, list or mapping), or that is a mapping, a list
    or a string in which ["Results"] does not occur (as a key, an element
    or a part), gives the all-zero summary, and no exception. *)
Theorem summary_of_guarded_input (scan_results : json) :
  truthy scan_results = false ∨ lacks_results scan_results = true →
  ∃ m, get_vulnerability_summary scan_results = Returned m ∧ all_zero m.
Proof.
  intros H. exists initial. split; [| apply all_zero_initial].
  unfold get_vulnerability_summary.
  destruct (truthy scan_results); [| done]. cbn.
  destruct H as [H | H]; [discriminate H |].
  destruct scan_results as [| | | | s | elems | items];
    try discriminate H; cbn in *; by rewrite H.
Qed.

Lemma summary_of_guarded_input_witness :
  (truthy report_no_results = false
   ∨ lacks_results report_no_results = true) ∧
  ∃ m, get_vulnerability_summary report_no_results = Returned m ∧ all_zero m.
Proof.
  split; [right; reflexivity |].
  apply (summary_of_guarded_input report_no_results). right. reflexivity.
Defined.

(** Outside the guard: a true boolean or a number other than zero is not
    empty, and the test ["Results" in] of it raises. *)
Lemma summary_raises_on_scalar (scan_results : json) :
  truthy scan_results = true →
  match scan_results with
  | JBool _ | JInt _ | JFloat _ => True
  | _ => False
  end →
  get_vulnerability_summary scan_results = Raised TypeError.
Proof.
  intros Ht Hscalar. unfold get_vulnerability_summary. rewrite Ht.
  by destruct scan_results.
Qed.

(** C4, as the claim has it, fails: a mapping whose ["Results"] is [null],
    or a number, has no recognizable result list, and the method raises
    [TypeError]. *)
Lemma summary_raises_on_null_results :
  well_formed report_null_results = false ∧
  get_vulnerability_summary report_null_results = Raised TypeError ∧
  get_vulnerability_summary report_numeric_results = Raised TypeError.
Proof. repeat split. Qed.




(** C10.  Whenever the method returns, the five severity keys and [total]
    are keys of the returned mapping, each bound to a non-negative
    integer. *)
Theorem summary_has_fixed_keys (scan_results : json) (m : gmap pykey Z) :
  get_vulnerability_summary scan_results = Returned m →
  Forall (λ l, ∃ v : Z, m !! KStr l = Some v ∧ (0 ≤ v)%Z) fixed_keys.
Proof.
  intros Hrun. destruct (sound_summary _ _ Hrun) as [Hkeys Hpos].
  apply Forall_forall. intros l Hl.
  destruct (Hkeys l) as [v Hv]; [by apply list_elem_of_In |]. eauto.
Qed.

Lemma summary_has_fixed_keys_witness :
  get_vulnerability_summary report_negligible = Returned summary_negligible ∧
  Forall (λ l, ∃ v : Z, summary_negligible !! KStr l = Some v ∧ (0 ≤ v)%Z)
         fixed_keys.
Proof.
  assert (get_vulnerability_summary report_negligible
          = Returned summary_negligible) as H by (vm_compute; reflexivity).
  split; [exact H |].
  exact (summary_has_fixed_keys report_negligible summary_negligible H).
Defined.

End SummaryClaims.

(** * Properties of the scanner methods *)

Section ScanFacts.

Context (E : Env) (self : scanner).

Ltac run :=
  unfold mbind, M_bind, mret, M_ret, lift, logger; cbn.

Lemma adjacent_app_l flag value cmd more :
  adjacent flag value cmd → adjacent flag value (cmd ++ more).
Proof.
  intros (before & after & ->). exists before, (after ++ more)%list.
  by rewrite <- app_assoc.
Qed.

Lemma adjacent_app_r flag value cmd more :
  adjacent flag value more → adjacent flag value (cmd ++ more).
Proof.
  intros (before & after & ->). exists (cmd ++ before)%list, after.
  by rewrite <- app_assoc.
Qed.

Lemma adjacent_here flag value after :
  adjacent flag value (flag :: value :: after).
Proof. by exists [], after. Qed.

Lemma adjacent_cons flag value x cmd :
  adjacent flag value cmd → adjacent flag value (x :: cmd).
Proof. apply (adjacent_app_r flag value [x]). Qed.

(** With no database the method logs, returns [None] and starts
    nothing. *)
Lemma scan_image_no_database image format severity output_file vuln_type s :
  st_db s = Absent ∨ st_db s = IsDir [] →
  scan_image E self image format severity output_file vuln_type s
  = (Returned JNull,
     add_log (LogRecord ERROR
       "Trivy database not found. Please run setup_database() first." None) s).
Proof.
  intros H. destruct s as [p files cmds records]. cbn in H.
  destruct H as [-> | ->]; reflexivity.
Qed.

(** With a regular file at the database path the check itself raises. *)
Lemma scan_image_file image format severity output_file vuln_type s :
  st_db s = IsFile →
  scan_image E self image format severity output_file vuln_type s
  = (Raised NotADirectoryError, s).
Proof.
  intros H. destruct s as [p files cmds records]. cbn in H.
  by subst p.
Qed.

(** With a database the method is its [try] block under its handler. *)
Lemma scan_image_with_database image format severity output_file vuln_type s :
  has_database (st_db s) = true →
  scan_image E self image format severity output_file vuln_type s
  = try_except (scan_body E self image format severity output_file vuln_type)
               any_exception scan_handler s.
Proof.
  intros H. destruct s as [p files cmds records]. cbn in H.
  by destruct p as [| | [| entry entries]].
Qed.

(** The [try] block starts the scanner once; after that it touches only
    the results file and the log. *)
Lemma scan_body_effect image format severity output_file vuln_type s :
  let cmd := scan_cmd self image format severity vuln_type in
  ∃ o s', scan_body E self image format severity output_file vuln_type s
          = (o, s') ∧
          st_invoked s' = (st_invoked s ++ [cmd])%list ∧
          st_db s' = (run_process E s cmd).2.
Proof.
  intros cmd. unfold scan_body, subprocess_run. run. fold cmd.
  destruct (run_process E s cmd) as [[result | e] p] eqn:Hrun; cbn.
  2: { by eexists _, _. }
  destruct (Z.eqb (returncode result) 0); cbn.
  2: { by eexists _, _. }
  destruct (given_str output_file); cbn.
  - unfold write_file. destruct (open_w E _ _); cbn; [by eexists _, _ |].
    destruct (String.eqb format "json"); cbn; by eexists _, _.
  - destruct (String.eqb format "json"); cbn; by eexists _, _.
Qed.

Lemma scan_image_database image format severity output_file vuln_type s :
  has_database (st_db s) = true →
  let cmd := scan_cmd self image format severity vuln_type in
  ∃ value s', scan_image E self image format severity output_file vuln_type s
              = (Returned value, s') ∧
              st_invoked s' = (st_invoked s ++ [cmd])%list ∧
              st_db s' = (run_process E s cmd).2.
Proof.
  intros Hdb cmd. rewrite scan_image_with_database by done.
  destruct (scan_body_effect image format severity output_file vuln_type s)
    as (o & s' & Hbody & Hcmds & Hp).
  unfold try_except. rewrite Hbody. destruct o as [value | e]; cbn.
  - by exists value, s'.
  - by eexists _, _.
Qed.

(** C1.  When the database precondition holds, [scan_image] starts one
    process whose command line mounts the runtime socket read-only, the
    cache directory (read-write: no [:ro]), the database directory
    read-only, sets the three environment variables, passes the format, the
    comma-joined severity and vulnerability-type filters when they are
    given, and ends with the image reference. *)
Theorem scan_image_invocation image format severity output_file vuln_type s :
  has_database (st_db s) = true →
  ∃ cmd value s',
    scan_image E self image format severity output_file vuln_type s
    = (Returned value, s') ∧
    st_invoked s' = (st_invoked s ++ [cmd])%list ∧
    adjacent "-v" "/var/run/docker.sock:/var/run/docker.sock:ro" cmd ∧
    adjacent "-v" (cache_path self +:+ ":/root/.cache/trivy") cmd ∧
    adjacent "-v" (db_path self +:+ ":/trivy-db:ro") cmd ∧
    adjacent "-e" "TRIVY_CACHE_DIR=/root/.cache/trivy" cmd ∧
    adjacent "-e" "TRIVY_DB_REPOSITORY=file:///trivy-db" cmd ∧
    adjacent "-e" "TRIVY_SKIP_UPDATE=true" cmd ∧
    adjacent "--format" format cmd ∧
    (∀ levels, severity = Some levels → levels ≠ [] →
       adjacent "--severity" (String.concat "," levels) cmd) ∧
    (∀ kinds, vuln_type = Some kinds → kinds ≠ [] →
       adjacent "--vuln-type" (String.concat "," kinds) cmd) ∧
    last cmd = Some image.
Proof.
  intros Hdb.
  destruct (scan_image_database image format severity output_file vuln_type s Hdb)
    as (value & s' & Hrun & Hcmds & _).
  exists (scan_cmd self image format severity vuln_type), value, s'.
  split; [done |]. split; [done |].
  unfold scan_cmd.
  set (base := [_; _; _; _; _; _; _; _; _; _; _; _; _; _; _; _; _; _; format]).
  set (with_severity := if given_list severity then _ else base).
  set (with_type := if given_list vuln_type then _ else with_severity).
  assert (∀ flag value, adjacent flag value base →
                        adjacent flag value with_severity) as Hsev.
  { intros flag v H. unfold with_severity.
    destruct (given_list severity); [by apply adjacent_app_l | done]. }
  assert (∀ flag value, adjacent flag value with_severity →
                        adjacent flag value (with_type ++ [image])) as Htype.
  { intros flag v H. apply adjacent_app_l. unfold with_type.
    destruct (given_list vuln_type); [by apply adjacent_app_l | done]. }
  repeat split.
  - apply Htype, Hsev. do 3 apply adjacent_cons. apply adjacent_here.
  - apply Htype, Hsev. do 5 apply adjacent_cons. apply adjacent_here.
  - apply Htype, Hsev. do 7 apply adjacent_cons. apply adjacent_here.
  - apply Htype, Hsev. do 9 apply adjacent_cons. apply adjacent_here.
  - apply Htype, Hsev. do 11 apply adjacent_cons. apply adjacent_here.
  - apply Htype, Hsev. do 13 apply adjacent_cons. apply adjacent_here.
  - apply Htype, Hsev. do 17 apply adjacent_cons. apply adjacent_here.
  - intros levels -> Hne. apply Htype. unfold with_severity.
    destruct levels as [| l ls]; [done |]. cbn [given_list default].
    apply adjacent_app_r, adjacent_here.
  - intros kinds -> Hne. apply adjacent_app_l. unfold with_type.
    destruct kinds as [| k ks]; [done |]. cbn [given_list default].
    apply adjacent_app_r, adjacent_here.
  - apply last_snoc.
Qed.

(** C2.  With the database directory absent or empty [scan_image] returns
    [None] and starts no process; it starts one only when the directory
    exists and has an entry. *)
Theorem scan_image_needs_database image format severity output_file vuln_type s :
  let r := scan_image E self image format severity output_file vuln_type s in
  (st_db s = Absent ∨ st_db s = IsDir [] →
   r.1 = Returned JNull ∧ st_invoked r.2 = st_invoked s) ∧
  (st_invoked r.2 ≠ st_invoked s ↔ has_database (st_db s) = true).
Proof.
  cbn zeta. split.
  - intros H. by rewrite scan_image_no_database.
  - split.
    + intros Hcmds. destruct (st_db s) as [| | [| entry entries]] eqn:Hs;
        [| | | done]; exfalso; apply Hcmds.
      * by rewrite scan_image_no_database by auto.
      * by rewrite scan_image_file.
      * by rewrite scan_image_no_database by auto.
    + intros Hdb.
      destruct (scan_image_database image format severity output_file
                  vuln_type s Hdb) as (value & s' & Hrun & Hcmds & _).
      rewrite Hrun. cbn. rewrite Hcmds.
      intros Heq. apply (f_equal length) in Heq.
      rewrite length_app in Heq. cbn in Heq. lia.
Qed.

(** A scan whose process ends with a non-zero status is logged and gives
    [None]. *)
Lemma scan_image_nonzero_exit image format severity output_file vuln_type s
    result :
  has_database (st_db s) = true →
  (run_process E s (scan_cmd self image format severity vuln_type)).1
  = Returned result →
  returncode result ≠ 0%Z →
  ∃ s', scan_image E self image format severity output_file vuln_type s
        = (Returned JNull, s') ∧
        last (st_log s')
        = Some (LogRecord ERROR ("Scan failed: " +:+ stderr result) None).
Proof.
  intros Hdb Hrun Hrc. rewrite scan_image_with_database by done.
  unfold try_except, scan_body, subprocess_run. run.
  destruct (run_process E s _) as [o p]. cbn in Hrun. subst o. cbn.
  apply Z.eqb_neq in Hrc. rewrite Hrc. cbn.
  eexists. split; [reflexivity |]. cbn. apply last_snoc.
Qed.


End ScanFacts.

(** ** [scan_multiple_images] *)

Section MultiFacts.

Context (E : Env) (self : scanner).

Lemma store_all_cons k v pairs (m : gmap string json) :
  store_all ((k, v) :: pairs) m = store_all pairs (<[k := v]> m).
Proof. reflexivity. Qed.

Lemma store_all_app pairs1 pairs2 (m : gmap string json) :
  store_all (pairs1 ++ pairs2) m = store_all pairs2 (store_all pairs1 m).
Proof. apply fold_left_app. Qed.

Lemma dom_store_all pairs : ∀ m : gmap string json,
  dom (store_all pairs m) = dom m ∪ list_to_set pairs.*1.
Proof.
  induction pairs as [| [k v] pairs IH]; intros m.
  - cbn. set_solver.
  - rewrite store_all_cons, IH, dom_insert_L. cbn. set_solver.
Qed.

Lemma lookup_store_all_other pairs k : ∀ m : gmap string json,
  k ∉ pairs.*1 → store_all pairs m !! k = m !! k.
Proof.
  induction pairs as [| [k' v] pairs IH]; intros m Hk; [done |].
  cbn in Hk. apply not_elem_of_cons in Hk as [Hne Hk].
  rewrite store_all_cons, IH by done. by rewrite lookup_insert_ne.
Qed.

(** The binding of a key is the value of its last pair. *)
Lemma lookup_store_all_last pairs i k v (m : gmap string json) :
  pairs !! i = Some (k, v) → k ∉ (drop (S i) pairs).*1 →
  store_all pairs m !! k = Some v.
Proof.
  intros Hi Hlast. rewrite <- (take_drop_middle pairs i (k, v) Hi).
  rewrite store_all_app, store_all_cons, lookup_store_all_other by done.
  apply lookup_insert_eq.
Qed.

(** Unless a regular file stands at the database path, [scan_image]
    returns. *)
Lemma scan_image_returns image format severity output_file vuln_type s :
  keeps_no_file E → st_db s ≠ IsFile →
  ∃ value s',
    scan_image E self image format severity output_file vuln_type s
    = (Returned value, s') ∧ st_db s' ≠ IsFile.
Proof.
  intros Henv Hs.
  destruct (st_db s) as [| | [| entry entries]] eqn:Hdb; [| done | |].
  - rewrite scan_image_no_database by auto. eexists _, _. split; [done |].
    cbn. by rewrite Hdb.
  - rewrite scan_image_no_database by auto. eexists _, _. split; [done |].
    cbn. by rewrite Hdb.
  - destruct (scan_image_database E self image format severity output_file
                vuln_type s) as (value & s' & Hrun & _ & Hp).
    { by rewrite Hdb. }
    exists value, s'. split; [done |]. rewrite Hp. apply Henv.
    by rewrite Hdb.
Qed.

Lemma scan_each_step image rest format severity results s value s1 :
  scan_image E self image format severity None None
    (add_log (scanning_record image) s) = (Returned value, s1) →
  scan_each E self (image :: rest) format severity results s
  = scan_each E self rest format severity (<[image := value]> results) s1.
Proof.
  intros Hrun.
  change (scan_each E self (image :: rest) format severity results s)
    with (match scan_image E self image format severity None None
                  (add_log (scanning_record image) s) with
          | (Returned a, s') =>
              scan_each E self rest format severity (<[image := a]> results) s'
          | (Raised e, s') => (Raised e, s')
          end).
  by rewrite Hrun.
Qed.

Lemma scan_each_scans format severity images :
  keeps_no_file E →
  ∀ results s, st_db s ≠ IsFile →
  ∃ values s',
    scan_each E self images format severity results s
    = (Returned (store_all (zip images values) results), s') ∧
    scans E self format severity s images values s' ∧
    length values = length images.
Proof.
  intros Henv. induction images as [| image rest IH]; intros results s Hs.
  - exists [], s. repeat split. constructor.
  - destruct (scan_image_returns image format severity None None
                (add_log (scanning_record image) s) Henv Hs)
      as (value & s1 & Hrun & Hs1).
    destruct (IH (<[image := value]> results) s1 Hs1)
      as (values & s2 & Hrest & Hscans & Hlen).
    exists (value :: values), s2.
    rewrite (scan_each_step _ _ _ _ _ _ _ _ Hrun), Hrest.
    repeat split; [by econstructor | by cbn; rewrite Hlen].
Qed.

(** C8.  [scan_multiple_images] scans every entry of the list, in list
    order, whatever the earlier scans returned, and returns the mapping from
    each image reference to what its (last) scan returned: a failed scan is
    the value [None] under its image, not an exception. *)
Theorem scan_multiple_images_scans_all images format severity s :
  keeps_no_file E → st_db s ≠ IsFile →
  ∃ values results s',
    scan_multiple_images E self images format severity s
    = (Returned results, s') ∧
    scans E self format severity s images values s' ∧
    length values = length images ∧
    dom results = list_to_set images ∧
    (∀ i image value,
       images !! i = Some image → values !! i = Some value →
       image ∉ drop (S i) images → results !! image = Some value).
Proof.
  intros Henv Hs.
  destruct (scan_each_scans format severity images Henv ∅ s Hs)
    as (values & s' & Hrun & Hscans & Hlen).
  exists values, (store_all (zip images values) ∅), s'.
  assert ((zip images values).*1 = images) as Hfst
    by (apply fst_zip; lia).
  repeat split; try done.
  - rewrite dom_store_all, Hfst, dom_empty_L. set_solver.
  - intros i image value Himage Hvalue Hlast.
    apply (lookup_store_all_last _ i).
    + apply lookup_zip_with_Some. eauto.
    + by rewrite fmap_drop, Hfst.
Qed.

End MultiFacts.

(** ** [update_database] *)

Section UpdateFacts.

Context (E : Env) (self : scanner).
Hypothesis env_keeps : keeps_directory E.

Lemma dir_stays_ret {A} (a : A) : dir_stays (mret a).
Proof. by intros s. Qed.

Lemma dir_stays_bind {A B} (c : M A) (f : A → M B) :
  dir_stays c → (∀ a, dir_stays (f a)) → dir_stays (c ≫= f).
Proof.
  intros Hc Hf s Hs. specialize (Hc s Hs).
  unfold mbind, M_bind. destruct (c s) as [[a | e] s1]; [| done].
  by apply Hf.
Qed.

Lemma dir_stays_logger l msg e : dir_stays (logger l msg e).
Proof. by intros s. Qed.

Lemma dir_stays_subprocess_run check cmd :
  dir_stays (subprocess_run E check cmd).
Proof.
  intros s Hs. unfold subprocess_run. specialize (env_keeps s cmd Hs).
  destruct (run_process E s cmd) as [[r | e] p]; [| done].
  by destruct (_ && _).
Qed.

Lemma dir_stays_try_except {A} (body : M A) catches handler :
  dir_stays body → (∀ e, dir_stays (handler e)) →
  dir_stays (try_except body catches handler).
Proof.
  intros Hbody Hhandler s Hs. specialize (Hbody s Hs). unfold try_except.
  destruct (body s) as [[a | e] s1]; [done |].
  destruct (catches e); [by apply Hhandler | done].
Qed.

Lemma dir_stays_path_exists : dir_stays path_exists.
Proof. by intros s. Qed.

(** Deleting and recreating leaves a directory, whether the deletion
    succeeds or gives up. *)
Lemma dir_stays_rmtree_mkdir : dir_stays (rmtree E;; mkdir).
Proof.
  intros s Hs. unfold mbind, M_bind, rmtree, mkdir.
  destruct (st_db s); try discriminate Hs.
  by destruct (rmtree_fails E s) as [[e remaining] |].
Qed.

Create HintDb dir_stays.
#[local] Hint Resolve dir_stays_ret dir_stays_logger dir_stays_subprocess_run
  dir_stays_path_exists dir_stays_rmtree_mkdir : dir_stays.
#[local] Hint Extern 2 (dir_stays (_ ≫= _)) =>
  apply dir_stays_bind; [| intros ?] : dir_stays.
#[local] Hint Extern 2 (dir_stays (try_except _ _ _)) =>
  apply dir_stays_try_except; [| intros ?] : dir_stays.

Lemma dir_stays_setup_database : dir_stays (setup_database E self).
Proof. unfold setup_database. auto 20 with dir_stays. Qed.

Lemma dir_stays_clear_database : dir_stays (clear_database E).
Proof.
  unfold clear_database. do 3 (apply dir_stays_bind; [auto with dir_stays |];
                               intros ?).
  destruct a1; auto with dir_stays.
Qed.

Lemma dir_stays_update_database : dir_stays (update_database E self).
Proof.
  unfold update_database, update_handler.
  pose proof dir_stays_setup_database. pose proof dir_stays_clear_database.
  auto 10 with dir_stays.
Qed.

(** The handler of [update_database] catches everything and returns. *)
Lemma update_database_returns s :
  ∃ b s', update_database E self s = (Returned b, s').
Proof.
  unfold update_database, try_except.
  destruct ((clear_database E;; setup_database E self) s) as [[b | e] s1].
  - by exists b, s1.
  - cbn. by eexists _, _.
Qed.

(** A failed pull ends the update before anything is deleted. *)
Lemma update_database_pull_fails s :
  pull_succeeds E s = false →
  ∃ e, update_database E self s
       = (Returned false,
          add_log (LogRecord ERROR "Failed to update database: " (Some e))
                  (pulled E s)).
Proof.
  unfold pull_succeeds, pulled, update_database, try_except, clear_database,
    subprocess_run, update_handler, mbind, M_bind, logger.
  change (add_log _ s) with (pull_state s).
  destruct (run_process E (pull_state s) pull_cmd) as [[r | e] p]; cbn.
  - intros ->. cbn. by eexists.
  - intros _. by eexists.
Qed.

(** After a successful pull the directory is deleted and recreated, and
    only then does the extraction start. *)
Lemma update_database_pull_succeeds s :
  pull_succeeds E s = true → is_dir (st_db s) = true →
  match rmtree_fails E (pulled E s) with
  | Some (e, remaining) =>
      update_database E self s
      = (Returned false,
         add_log (LogRecord ERROR "Failed to update database: " (Some e))
                 (set_db (IsDir remaining) (pulled E s)))
  | None =>
      update_database E self s
      = try_except (setup_database E self) any_exception update_handler
                   (set_db (IsDir []) (set_db Absent (pulled E s)))
  end.
Proof.
  intros Hpull Hs.
  assert (is_dir (st_db (pulled E s)) = true) as Hp
    by (by apply (env_keeps (pull_state s) pull_cmd)).
  revert Hpull Hp.
  unfold pull_succeeds, pulled, update_database, try_except, clear_database,
    subprocess_run, update_handler, path_exists, rmtree, mkdir, mbind, M_bind,
    logger.
  change (add_log _ s) with (pull_state s).
  destruct (run_process E (pull_state s) pull_cmd) as [[r | e] p]; cbn;
    [| done].
  intros -> Hp. cbn. destruct p as [| | entries]; try discriminate Hp. cbn.
  by destruct (rmtree_fails E _) as [[e remaining] |].
Qed.

(** C7.  [update_database] returns, and the database directory that was
    there before is there after: when the pull fails nothing is deleted,
    and when it succeeds the directory is recreated right after its
    deletion, before the extraction is started. *)
Theorem update_database_keeps_directory s :
  is_dir (st_db s) = true →
  ∃ b s',
    update_database E self s = (Returned b, s') ∧
    is_dir (st_db s') = true ∧
    (pull_succeeds E s = false →
       b = false ∧ st_db s' = st_db (pulled E s) ∧
       st_invoked s' = (st_invoked s ++ [pull_cmd])%list) ∧
    (pull_succeeds E s = true →
       (∃ e remaining,
          rmtree_fails E (pulled E s) = Some (e, remaining) ∧
          b = false ∧ st_db s' = IsDir remaining)
       ∨ (∃ s_mid,
            st_db s_mid = IsDir [] ∧
            try_except (setup_database E self) any_exception update_handler
                       s_mid = (Returned b, s'))).
Proof.
  intros Hs. destruct (update_database_returns s) as (b & s' & Hrun).
  exists b, s'. split; [done |]. split; [| split].
  - pose proof (dir_stays_update_database s Hs) as H. by rewrite Hrun in H.
  - intros Hfail. destruct (update_database_pull_fails s Hfail) as [e He].
    rewrite He in Hrun. by injection Hrun as <- <-.
  - intros Hok. pose proof (update_database_pull_succeeds s Hok Hs) as H.
    destruct (rmtree_fails E (pulled E s)) as [[e remaining] |] eqn:Hrm.
    + left. exists e, remaining. rewrite H in Hrun.
      by injection Hrun as <- <-.
    + right. eexists. split; [| by rewrite <- H]. done.
Qed.

End UpdateFacts.

(** The constructor leaves a directory at the database path. *)
Lemma init_creates_directory E db_arg cache_arg s self s' :
  init E db_arg cache_arg s = (Returned self, s') → is_dir (st_db s') = true.
Proof.
  unfold init, make_db_dir, make_dir, mbind, M_bind, mret, M_ret, logger.
  destruct (st_db s) eqn:Hs;
    repeat match goal with
           | |- context [mkdir_fails E ?path] =>
               destruct (mkdir_fails E path)
           end; try done;
    destruct (from_env E); intros [= _ <-]; cbn; by rewrite ?Hs.
Qed.

(** ** [list_local_images] *)

Section ListFacts.

Context (self : scanner).

(** C9.  [list_local_images] never raises: with no client, or when the
    query of the runtime fails, it logs an error and returns the empty
    list. *)
Theorem list_local_images_never_raises s :
  ∃ records s',
    list_local_images self s = (Returned records, s') ∧
    (docker_client self = None →
       records = [] ∧
       s' = add_log (LogRecord ERROR "Docker client not available" None) s) ∧
    (∀ client e,
       docker_client self = Some client → images_list client = Raised e →
       records = [] ∧
       s' = add_log (LogRecord ERROR "Failed to list images: " (Some e)) s).
Proof.
  unfold list_local_images.
  destruct (docker_client self) as [client |].
  - unfold try_except, mbind, M_bind, lift, logger, mret, M_ret.
    destruct (images_list client) as [images | e] eqn:Hquery; cbn.
    + destruct (for_each append_image images []) as [records | e]; cbn;
        (eexists _, _; split; [done |]; split; [done |]);
        intros c e' [= <-] He; rewrite Hquery in He; discriminate He.
    + eexists _, _. split; [done |]. split; [done |].
      intros c e' [= <-] He. rewrite Hquery in He. by injection He as <-.
  - cbn. eexists _, _. split; [done |]. split; [done |]. done.
Qed.

End ListFacts.

(** * The theorems at sample inputs *)

Section AtSamples.

Import Samples.

Lemma env_fixed_keeps_no_file code out err :
  keeps_no_file (env_fixed code out err).
Proof. by intros s cmd H. Qed.

Lemma scan_image_invocation_witness :
  has_database (st_db state0) = true ∧
  ∃ cmd value s',
    scan_image env_empty_report self0 "nginx:latest" "json"
      (Some ["CRITICAL"; "HIGH"]) None (Some ["os"; "library"]) state0
    = (Returned value, s') ∧
    st_invoked s' = (st_invoked state0 ++ [cmd])%list ∧
    adjacent "-v" "/var/run/docker.sock:/var/run/docker.sock:ro" cmd ∧
    adjacent "-v" (cache_path self0 +:+ ":/root/.cache/trivy") cmd ∧
    adjacent "-v" (db_path self0 +:+ ":/trivy-db:ro") cmd ∧
    adjacent "-e" "TRIVY_CACHE_DIR=/root/.cache/trivy" cmd ∧
    adjacent "-e" "TRIVY_DB_REPOSITORY=file:///trivy-db" cmd ∧
    adjacent "-e" "TRIVY_SKIP_UPDATE=true" cmd ∧
    adjacent "--format" "json" cmd ∧
    (∀ levels, Some ["CRITICAL"; "HIGH"] = Some levels → levels ≠ [] →
       adjacent "--severity" (String.concat "," levels) cmd) ∧
    (∀ kinds, Some ["os"; "library"] = Some kinds → kinds ≠ [] →
       adjacent "--vuln-type" (String.concat "," kinds) cmd) ∧
    last cmd = Some "nginx:latest".
Proof.
  split; [reflexivity |].
  apply (scan_image_invocation env_empty_report self0 "nginx:latest" "json"
           (Some ["CRITICAL"; "HIGH"]) None (Some ["os"; "library"]) state0).
  reflexivity.
Defined.



Lemma update_database_keeps_directory_witness :
  keeps_directory env_pull_fails ∧
  is_dir (st_db state0) = true ∧
  ∃ b s',
    update_database env_pull_fails self0 state0 = (Returned b, s') ∧
    is_dir (st_db s') = true ∧
    (pull_succeeds env_pull_fails state0 = false →
       b = false ∧ st_db s' = st_db (pulled env_pull_fails state0) ∧
       st_invoked s' = (st_invoked state0 ++ [pull_cmd])%list) ∧
    (pull_succeeds env_pull_fails state0 = true →
       (∃ e remaining,
          rmtree_fails env_pull_fails (pulled env_pull_fails state0)
          = Some (e, remaining) ∧
          b = false ∧ st_db s' = IsDir remaining)
       ∨ (∃ s_mid,
            st_db s_mid = IsDir [] ∧
            try_except (setup_database env_pull_fails self0) any_exception
                       update_handler s_mid = (Returned b, s'))).
Proof.
  assert (keeps_directory env_pull_fails) as Henv by (by intros s cmd H).
  split; [exact Henv |]. split; [reflexivity |].
  apply (update_database_keeps_directory env_pull_fails self0 Henv state0).
  reflexivity.
Defined.

Lemma scan_multiple_images_scans_all_witness :
  keeps_no_file env_scan_fails ∧
  st_db state0 ≠ IsFile ∧
  ∃ values results s',
    scan_multiple_images env_scan_fails self0 ["nginx:latest"; "redis:7"]
      "json" None state0
    = (Returned results, s') ∧
    scans env_scan_fails self0 "json" None state0
          ["nginx:latest"; "redis:7"] values s' ∧
    length values = length ["nginx:latest"; "redis:7"] ∧
    dom results = list_to_set ["nginx:latest"; "redis:7"] ∧
    (∀ i image value,
       ["nginx:latest"; "redis:7"] !! i = Some image →
       values !! i = Some value →
       image ∉ drop (S i) ["nginx:latest"; "redis:7"] →
       results !! image = Some value).
Proof.
  pose proof (env_fixed_keeps_no_file 1 "" "FATAL image scan error") as Henv.
  assert (st_db state0 ≠ IsFile) as Hs by discriminate.
  split; [exact Henv |]. split; [exact Hs |].
  exact (scan_multiple_images_scans_all env_scan_fails self0
           ["nginx:latest"; "redis:7"] "json" None state0 Henv Hs).
Defined.

(** The scenario of the specification: severities CRITICAL, CRITICAL and
    LOW in one target. *)
Example summary_of_report_nginx :
  Summary.get_vulnerability_summary report_nginx
  = Returned (<[KStr "total" := 3]>
             (<[KStr "LOW" := 1]>
             (<[KStr "CRITICAL" := 2]> Summary.initial))).
Proof. vm_compute. reflexivity. Qed.

(** An entry whose severity is the string ["total"] is counted twice in
    [total]. *)
Example summary_of_total_label :
  Summary.get_vulnerability_summary
    (JObj [("Results",
            JArr [JObj [("Vulnerabilities", JArr [vuln "CVE-0" "total"])]])])
  = Returned (<[KStr "total" := 2]> Summary.initial).
Proof. vm_compute. reflexivity. Qed.

(** With an empty database directory nothing is started. *)
Example scan_with_empty_database :
  scan_image env_empty_report self0 "nginx:latest" "json" None None None
    state_empty_db
  = (Returned JNull,
     State (IsDir []) ∅ []
       [LogRecord ERROR
          "Trivy database not found. Please run setup_database() first."
          None]).
Proof. reflexivity. Qed.

(** An empty report decodes and is returned as it is. *)
Example scan_with_empty_report :
  (scan_image env_empty_report self0 "nginx:latest" "json" None None None
     state0).1
  = Returned (JObj []).
Proof. reflexivity. Qed.

(** One image with two tags gives two records with the same identifier,
    cut to twelve characters. *)
Example list_two_tags :
  (list_local_images self_with_client state0).1
  = Returned
      [ImageRecord "sha256:4bb46" "a:1" (JInt 10485760)
                   (JStr "2024-03-01T10:00:00Z");
       ImageRecord "sha256:4bb46" "a:2" (JInt 10485760)
                   (JStr "2024-03-01T10:00:00Z")].
Proof. reflexivity. Qed.

(** A batch of two failing scans: both images are keys, both bound to
    [None], and two processes were started. *)
Example scan_two_failing_images :
  let r := scan_multiple_images env_scan_fails self0
             ["nginx:latest"; "redis:7"] "json" None state0 in
  r.1 = Returned (<["redis:7" := JNull]> (<["nginx:latest" := JNull]> ∅)) ∧
  length (st_invoked r.2) = 2%nat.
Proof. vm_compute. split; reflexivity. Qed.

End AtSamples.

(** * Further properties of [get_vulnerability_summary] *)

Section SummaryMore.

Import Summary Samples MoreSamples.

Lemma for_each_invariant {A B} (I : B → Prop) (body : B → A → outcome B) :
  (∀ b x b', I b → body b x = Returned b' → I b') →
  ∀ xs b b', I b → for_each body xs b = Returned b' → I b'.
Proof.
  intros Hbody xs. induction xs as [| x xs IH]; intros b b' Hb; cbn.
  - by intros [= <-].
  - destruct (body b x) as [b1 |] eqn:H1; [| done]. cbn. eauto.
Qed.

Lemma for_each_raises {A B} (I : B → Prop) (Q : exn → Prop)
    (body : B → A → outcome B) :
  (∀ b x b', I b → body b x = Returned b' → I b') →
  (∀ b x e, I b → body b x = Raised e → Q e) →
  ∀ xs b e, I b → for_each body xs b = Raised e → Q e.
Proof.
  intros Hkeep Hraise xs. induction xs as [| x xs IH]; intros b e Hb; cbn.
  - done.
  - destruct (body b x) as [b1 |] eqn:H1; cbn.
    + eauto.
    + intros [= <-]. eauto.
Qed.

Lemma count_vuln_raises m vuln e :
  sound m → count_vuln m vuln = Raised e → wrong_type e.
Proof.
  intros Hm. unfold count_vuln.
  destruct vuln as [| | | | | | items]; cbn;
    try (intros [= <-]; by right).
  destruct (key_of _) as [k |] eqn:Hk; cbn.
  - destruct (sound_bump m k Hm) as [Hkeys _].
    destruct (Hkeys "total") as [t Ht]; [cbn; tauto |].
    unfold getitem. by rewrite Ht.
  - intros [= <-].
    destruct (default _ _); cbn in Hk; try discriminate Hk;
      injection Hk as <-; by left.
Qed.

Lemma count_result_raises m target e :
  sound m → count_result m target = Raised e → wrong_type e.
Proof.
  intros Hm. unfold count_result.
  destruct target as [| | | | s | elems | items]; cbn;
    try (intros [= <-]; by left).
  - destruct (str_contains _ _); cbn; [| done]. intros [= <-]. by left.
  - destruct (existsb _ _); cbn; [| done]. intros [= <-]. by left.
  - case_bool_decide as Hin; cbn; [| done].
    destruct Hin as [v Hv]. rewrite Hv. cbn.
    destruct (truthy v); [| done].
    destruct (py_iter v) as [entries |] eqn:Hit; cbn.
    + apply (for_each_raises sound wrong_type);
        [apply sound_count_vuln | apply count_vuln_raises | done].
    + intros [= <-].
      destruct v; cbn in Hit; try discriminate Hit;
        injection Hit as <-; by left.
Qed.

(** X1.  Whatever the input, the only exceptions of the method are
    [TypeError] and [AttributeError]: no [KeyError] escapes, the keys it
    reads are guarded or always present. *)
Theorem summary_raises_only_wrong_type (scan_results : json) (e : exn) :
  get_vulnerability_summary scan_results = Raised e → wrong_type e.
Proof.
  unfold get_vulnerability_summary.
  destruct (negb (truthy scan_results)); [done |].
  destruct scan_results as [| | | | s | elems | items]; cbn;
    try (intros [= <-]; by left).
  - destruct (str_contains _ _); cbn; [| done]. intros [= <-]. by left.
  - destruct (existsb _ _); cbn; [| done]. intros [= <-]. by left.
  - case_bool_decide as Hin; cbn; [| done].
    destruct Hin as [v Hv]. rewrite Hv. cbn.
    destruct (py_iter v) as [targets |] eqn:Hit; cbn.
    + apply (for_each_raises sound wrong_type);
        [apply sound_count_result | apply count_result_raises
        | apply sound_initial].
    + intros [= <-].
      destruct v; cbn in Hit; try discriminate Hit;
        injection Hit as <-; by left.
Qed.

Lemma summary_raises_only_wrong_type_witness :
  get_vulnerability_summary report_null_results = Raised TypeError ∧
  wrong_type TypeError.
Proof.
  assert (get_vulnerability_summary report_null_results = Raised TypeError)
    as H by reflexivity.
  split; [exact H |].
  exact (summary_raises_only_wrong_type report_null_results TypeError H).
Defined.

(** The step of the inner loop keeps [total] at least as large as the sum
    of the five buckets. *)
Lemma covered_count_vuln m vuln m' :
  sound m ∧ (sum_of_buckets m ≤ bucket "total" m)%Z →
  count_vuln m vuln = Returned m' →
  sound m' ∧ (sum_of_buckets m' ≤ bucket "total" m')%Z.
Proof.
  intros [Hm Hle] Hrun. split; [by eapply sound_count_vuln |].
  revert Hrun. unfold count_vuln.
  destruct (py_get vuln "Severity" (JStr "UNKNOWN")) as [sev |]; [| done].
  cbn. destruct (key_of sev) as [k |]; [| done]. cbn.
  destruct Hm as [Hkeys Hpos].
  destruct (Hkeys "total") as [t Ht]; [cbn; tauto |].
  unfold getitem. rewrite lookup_insert. case_decide as Hk.
  - subst k. rewrite Ht. cbn. intros [= <-].
    revert Hle. unfold sum_of_buckets, bucket.
    rewrite !lookup_insert_eq, Ht.
    rewrite !lookup_insert_ne by discriminate. cbn. lia.
  - rewrite Ht. cbn. intros [= <-].
    revert Hle. unfold sum_of_buckets, bucket.
    rewrite lookup_insert_eq, Ht.
    rewrite !(lookup_insert_ne _ (KStr "total")) by discriminate.
    rewrite !lookup_insert.
    repeat case_decide; simplify_eq; cbn;
      repeat match goal with
             | |- context [m !! ?key] =>
                 let v := fresh "v" in
                 let Hv := fresh "Hv" in
                 destruct (m !! key) as [v |] eqn:Hv; cbn
             end; lia.
Qed.

Lemma covered_count_result m target m' :
  sound m ∧ (sum_of_buckets m ≤ bucket "total" m)%Z →
  count_result m target = Returned m' →
  sound m' ∧ (sum_of_buckets m' ≤ bucket "total" m')%Z.
Proof.
  intros Hm. unfold count_result.
  destruct (py_in "Vulnerabilities" target) as [[|] |]; cbn; try done.
  - destruct (py_getitem target "Vulnerabilities") as [vulns |]; cbn; [| done].
    destruct (truthy vulns).
    + destruct (py_iter vulns) as [entries |]; cbn; [| done].
      intros Hrun.
      by apply (for_each_invariant _ _ covered_count_vuln _ _ _ Hm Hrun).
    + by intros [= <-].
  - by intros [= <-].
Qed.

(** X2.  In every summary the method returns, [total] is at least the sum
    of the five severity buckets, whatever labels the entries carry. *)
Theorem summary_total_covers_buckets (scan_results : json)
    (m : gmap pykey Z) :
  get_vulnerability_summary scan_results = Returned m →
  (sum_of_buckets m ≤ bucket "total" m)%Z.
Proof.
  assert (sound initial ∧ (sum_of_buckets initial ≤ bucket "total" initial)%Z)
    as H0 by (split; [apply sound_initial | vm_compute; discriminate]).
  unfold get_vulnerability_summary.
  destruct (negb (truthy scan_results)).
  { intros [= <-]. apply H0. }
  destruct (py_in "Results" scan_results) as [[|] |]; cbn; try done.
  - destruct (py_getitem scan_results "Results") as [rs |]; cbn; [| done].
    destruct (py_iter rs) as [targets |]; cbn; [| done].
    intros Hrun.
    by apply (for_each_invariant _ _ covered_count_result _ _ _ H0 Hrun).
  - intros [= <-]. apply H0.
Qed.

Lemma summary_total_covers_buckets_witness :
  get_vulnerability_summary report_negligible = Returned summary_negligible ∧
  (sum_of_buckets summary_negligible ≤ bucket "total" summary_negligible)%Z.
Proof.
  assert (get_vulnerability_summary report_negligible
          = Returned summary_negligible) as H by (vm_compute; reflexivity).
  split; [exact H |].
  exact (summary_total_covers_buckets report_negligible summary_negligible H).
Defined.

(** ** The summary as a tally of labels *)

Lemma tally_app labels1 labels2 m :
  tally (labels1 ++ labels2) m = tally labels2 (tally labels1 m).
Proof. apply fold_left_app. Qed.

Lemma tally_step_total m label : is_Some (tally_step m label !! KStr "total").
Proof. unfold tally_step. rewrite lookup_insert_eq. eauto. Qed.

Lemma tally_total labels : ∀ m,
  is_Some (m !! KStr "total") → is_Some (tally labels m !! KStr "total").
Proof.
  induction labels as [| l labels IH]; intros m Hm; [done |].
  cbn. apply IH, tally_step_total.
Qed.

Lemma count_vuln_tally m vuln :
  entry_shape not_total vuln = true → is_Some (m !! KStr "total") →
  count_vuln m vuln = Returned (tally_step m (severity_label vuln)).
Proof.
  intros Hshape [t Ht].
  destruct vuln as [| | | | | | items]; try discriminate Hshape.
  unfold count_vuln, tally_step. cbn in *.
  destruct (dict_lookup "Severity" items) as [[| | | | s | |] |];
    try discriminate Hshape; cbn.
  - apply not_total_spec in Hshape.
    unfold getitem. rewrite lookup_insert_ne by congruence. by rewrite Ht.
  - unfold getitem. rewrite lookup_insert_ne by discriminate. by rewrite Ht.
Qed.

Lemma count_vulns_tally vs : ∀ m,
  forallb (entry_shape not_total) vs = true → is_Some (m !! KStr "total") →
  for_each count_vuln vs m = Returned (tally (severity_label <$> vs) m).
Proof.
  induction vs as [| v vs IH]; intros m Hshape Hm; [done |].
  cbn in Hshape. apply andb_prop in Hshape as [Hv Hvs].
  cbn. rewrite count_vuln_tally by done. cbn.
  apply IH; [done | apply tally_step_total].
Qed.

Lemma count_result_tally m target :
  target_shape not_total target = true → is_Some (m !! KStr "total") →
  count_result m target
  = Returned (tally (severity_label <$> target_entries target) m).
Proof.
  intros Hshape Hm.
  destruct target as [| | | | | | items]; try discriminate Hshape.
  unfold count_result. cbn in *.
  destruct (dict_lookup "Vulnerabilities" items) as [[| | | | | vulns |] |];
    try discriminate Hshape; cbn; try done.
  destruct vulns as [| v vs]; [done |].
  cbn [truthy]. cbv iota. by apply count_vulns_tally.
Qed.

Lemma count_results_tally targets : ∀ m,
  forallb (target_shape not_total) targets = true →
  is_Some (m !! KStr "total") →
  for_each count_result targets m
  = Returned (tally (severity_label <$> concat (map target_entries targets)) m).
Proof.
  induction targets as [| x xs IH]; intros m Hshape Hm; [done |].
  cbn in Hshape. apply andb_prop in Hshape as [Hx Hxs].
  cbn. rewrite count_result_tally by done. cbn.
  rewrite fmap_app, tally_app. apply IH; [done | by apply tally_total].
Qed.

Lemma summary_tally_of_shape (scan_results : json) :
  report_shape not_total scan_results = true →
  get_vulnerability_summary scan_results
  = Returned (tally (severity_label <$> vuln_entries scan_results) initial).
Proof.
  intros Hshape.
  assert (is_Some (initial !! KStr "total")) as Ht by (by eexists).
  destruct scan_results as [| | | | | | items]; try discriminate Hshape.
  unfold get_vulnerability_summary. cbn in *.
  destruct items as [| item items'] eqn:Hitems; [done |].
  rewrite <- Hitems in *. replace (negb _) with false by (by subst).
  destruct (dict_lookup "Results" items) as [[| | | | | targets |] |];
    try discriminate Hshape; cbn; try done.
  by apply count_results_tally.
Qed.

(** X3.  For a report of the expected shape whose severities are strings
    other than ["total"] (or absent), the summary is the tally, from the
    dictionary literal on, of the labels of all entries in report order:
    how the entries are spread over targets plays no part. *)
Theorem summary_is_tally (scan_results : json) :
  report_shape not_total scan_results = true →
  get_vulnerability_summary scan_results
  = Returned (tally (severity_label <$> vuln_entries scan_results) initial).
Proof. apply summary_tally_of_shape. Qed.

Lemma summary_is_tally_witness :
  report_shape not_total report_negligible = true ∧
  get_vulnerability_summary report_negligible
  = Returned (tally (severity_label <$> vuln_entries report_negligible)
                    initial).
Proof.
  split; [reflexivity |].
  apply (summary_is_tally report_negligible). reflexivity.
Defined.

(** Two countings commute. *)
Lemma tally_step_comm m a b :
  a ≠ "total" → b ≠ "total" →
  tally_step (tally_step m a) b = tally_step (tally_step m b) a.
Proof.
  intros Ha Hb. destruct (decide (a = b)) as [-> | Hab]; [done |].
  assert (KStr a ≠ KStr "total") by congruence.
  assert (KStr b ≠ KStr "total") by congruence.
  assert (KStr a ≠ KStr b) by congruence.
  apply map_eq. intros k. unfold tally_step.
  destruct (decide (k = KStr "total")) as [-> | Hk1];
    [| destruct (decide (k = KStr a)) as [-> | Hk2];
       [| destruct (decide (k = KStr b)) as [-> | Hk3]]];
    by simplify_map_eq.
Qed.

Lemma tally_permutation labels1 labels2 :
  labels1 ≡ₚ labels2 → Forall (λ l, l ≠ "total") labels1 →
  ∀ m, tally labels1 m = tally labels2 m.
Proof.
  induction 1 as [| x l1 l2 Hp IH | x y l | l1 l2 l3 Hp1 IH1 Hp2 IH2];
    intros Hall m.
  - done.
  - apply Forall_cons in Hall as [_ Hall]. cbn. by apply IH.
  - apply Forall_cons in Hall as [Hy Hall].
    apply Forall_cons in Hall as [Hx _].
    cbn. by rewrite tally_step_comm.
  - rewrite IH1 by done. apply IH2. by rewrite <- Hp1.
Qed.

Lemma labels_not_total vs :
  forallb (entry_shape not_total) vs = true →
  Forall (λ l, l ≠ "total") (severity_label <$> vs).
Proof.
  induction vs as [| v vs IH]; [constructor |]. cbn.
  intros [Hv Hvs]%andb_prop. constructor; [| by apply IH].
  destruct v as [| | | | | | items]; try discriminate Hv. cbn in *.
  destruct (dict_lookup "Severity" items) as [[| | | | s | |] |];
    try discriminate Hv; [by apply not_total_spec | discriminate].
Qed.

(** X4.  The summary does not depend on the order of the entries, nor on
    the targets they stand under: two reports of the expected shape with
    the same entries up to order have the same summary. *)
Theorem summary_order_independent (report1 report2 : json) :
  report_shape not_total report1 = true →
  report_shape not_total report2 = true →
  vuln_entries report1 ≡ₚ vuln_entries report2 →
  get_vulnerability_summary report1 = get_vulnerability_summary report2.
Proof.
  intros H1 H2 Hperm. rewrite !summary_tally_of_shape by done. f_equal.
  apply tally_permutation; [by rewrite Hperm |].
  apply labels_not_total, (entries_of_shape not_total), H1.
Qed.

Lemma summary_order_independent_witness :
  report_shape not_total report_nginx = true ∧
  report_shape not_total report_nginx_regrouped = true ∧
  vuln_entries report_nginx ≡ₚ vuln_entries report_nginx_regrouped ∧
  get_vulnerability_summary report_nginx
  = get_vulnerability_summary report_nginx_regrouped.
Proof.
  assert (vuln_entries report_nginx ≡ₚ vuln_entries report_nginx_regrouped)
    as Hperm.
  { cbn. etrans; [apply Permutation_swap |].
    etrans; [apply perm_skip, Permutation_swap |].
    apply Permutation_swap. }
  split; [reflexivity |]. split; [reflexivity |]. split; [exact Hperm |].
  exact (summary_order_independent report_nginx report_nginx_regrouped
           eq_refl eq_refl Hperm).
Defined.

Lemma count_result_clean m target :
  clean_target target = true → count_result m target = Returned m.
Proof.
  destruct target as [| | | | | | items]; try done.
  unfold count_result. cbn.
  destruct (dict_lookup "Vulnerabilities" items) as [v |]; cbn; [| done].
  intros Hv. apply negb_true_iff in Hv. by rewrite Hv.
Qed.

(** X5.  A report whose targets list no vulnerability (the key is missing,
    or its value is [null] or empty) gives the all-zero summary. *)
Theorem summary_of_clean_report (items : list (string * json))
    (targets : list json) :
  dict_lookup "Results" items = Some (JArr targets) →
  forallb clean_target targets = true →
  get_vulnerability_summary (JObj items) = Returned initial.
Proof.
  intros Hresults Hclean. unfold get_vulnerability_summary. cbn.
  destruct items as [| item items'] eqn:Hitems; [discriminate Hresults |].
  rewrite <- Hitems in *. replace (negb _) with false by (by subst).
  rewrite Hresults. cbn. clear Hresults.
  generalize initial. induction targets as [| x xs IH]; intros m; [done |].
  cbn in Hclean. apply andb_prop in Hclean as [Hx Hxs].
  cbn. rewrite count_result_clean by done. cbn. by apply IH.
Qed.

Lemma summary_of_clean_report_witness :
  forallb clean_target
    [JObj [("Target", JStr "alpine:3.19")];
     JObj [("Target", JStr "app/go.sum"); ("Vulnerabilities", JNull)]] = true ∧
  get_vulnerability_summary report_clean = Returned initial.
Proof.
  split; [reflexivity |].
  apply (summary_of_clean_report
           [("SchemaVersion", JInt 2);
            ("Results",
             JArr [JObj [("Target", JStr "alpine:3.19")];
                   JObj [("Target", JStr "app/go.sum");
                         ("Vulnerabilities", JNull)]])]
           [JObj [("Target", JStr "alpine:3.19")];
            JObj [("Target", JStr "app/go.sum"); ("Vulnerabilities", JNull)]]);
    reflexivity.
Defined.


End SummaryMore.

(** * Further properties of [scan_image] *)

Section ScanMore.

Context (E : Env) (self : scanner).

Ltac run :=
  unfold try_except, scan_body, subprocess_run, write_file, scan_handler,
    mbind, M_bind, mret, M_ret, lift, logger; cbn.

(** X6.  A result other than [None] means that the database was there and
    that the scanner process was started, once, and ended with status
    0. *)
Theorem scan_image_result_means_exit_zero image format severity output_file
    vuln_type s value s' :
  scan_image E self image format severity output_file vuln_type s
  = (Returned value, s') →
  value ≠ JNull →
  let cmd := scan_cmd self image format severity vuln_type in
  has_database (st_db s) = true ∧
  exits_zero E s cmd = true ∧
  st_invoked s' = (st_invoked s ++ [cmd])%list.
Proof.
  intros Hrun Hvalue cmd.
  destruct (has_database (st_db s)) eqn:Hdb.
  2: { exfalso. destruct (st_db s) as [| | [| entry entries]] eqn:Hs;
         try discriminate Hdb.
       - rewrite scan_image_no_database in Hrun by auto. by injection Hrun.
       - by rewrite scan_image_file in Hrun.
       - rewrite scan_image_no_database in Hrun by auto. by injection Hrun. }
  split; [done |].
  rewrite scan_image_with_database in Hrun by done. revert Hrun.
  unfold exits_zero. run. fold cmd.
  destruct (run_process E s cmd) as [[r | e] p]; cbn.
  2: { by intros [= <- _]. }
  destruct (Z.eqb (returncode r) 0); cbn.
  2: { by intros [= <- _]. }
  destruct (given_str output_file); cbn.
  - destruct (open_w E _ _); cbn; [by intros [= <- _] |].
    destruct (String.eqb format "json"); cbn.
    + destruct (json_loads E (stdout r)); cbn; [| by intros [= <- _]].
      by intros [= _ <-].
    + by intros [= _ <-].
  - destruct (String.eqb format "json"); cbn.
    + destruct (json_loads E (stdout r)); cbn; [| by intros [= <- _]].
      by intros [= _ <-].
    + by intros [= _ <-].
Qed.

(** X7.  With a format other than json, a process that ends with status 0
    and a results file that can be written (if one is asked for), the
    method returns the captured output as it is. *)
Theorem scan_image_raw_text image format severity output_file vuln_type s r :
  has_database (st_db s) = true →
  (run_process E s (scan_cmd self image format severity vuln_type)).1
  = Returned r →
  returncode r = 0%Z →
  String.eqb format "json" = false →
  can_save E self (scan_cmd self image format severity vuln_type)
           output_file s →
  (scan_image E self image format severity output_file vuln_type s).1
  = Returned (JStr (stdout r)).
Proof.
  intros Hdb Hrun Hrc Hformat Hsave. rewrite scan_image_with_database by done.
  unfold can_save, scanned, output_path in Hsave. run.
  destruct (run_process E s _) as [o p]. cbn in Hrun, Hsave. subst o. cbn.
  rewrite Hrc. cbn. destruct (given_str output_file); cbn.
  - rewrite Hsave by done. cbn. by rewrite Hformat.
  - by rewrite Hformat.
Qed.

(** X8.  When a results file is asked for, the process ends with status 0
    and the file can be opened, the file holds the captured output as it
    is, whatever the format and whether or not the output decodes. *)
Theorem scan_image_saves_output image format severity output_file vuln_type
    s r :
  has_database (st_db s) = true →
  (run_process E s (scan_cmd self image format severity vuln_type)).1
  = Returned r →
  returncode r = 0%Z →
  given_str output_file = true →
  open_w E (scanned E (scan_cmd self image format severity vuln_type) s)
         (output_path E self output_file) = None →
  st_files (scan_image E self image format severity output_file vuln_type s).2
    !! output_path E self output_file
  = Some (stdout r).
Proof.
  intros Hdb Hrun Hrc Hgiven Hopen. rewrite scan_image_with_database by done.
  unfold scanned, output_path in *. run.
  destruct (run_process E s _) as [o p]. cbn in Hrun, Hopen. subst o. cbn.
  rewrite Hrc, Hgiven. cbn. rewrite Hopen. cbn.
  destruct (String.eqb format "json"); cbn.
  - destruct (json_loads E (stdout r)); cbn; apply lookup_insert_eq.
  - apply lookup_insert_eq.
Qed.

Lemma scan_image_files_frame image format severity output_file
    vuln_type s path :
  given_str output_file = false ∨ path ≠ output_path E self output_file →
  st_files (scan_image E self image format severity output_file vuln_type s).2
    !! path
  = st_files s !! path.
Proof.
  intros Hpath.
  destruct (has_database (st_db s)) eqn:Hdb.
  2: { destruct (st_db s) as [| | [| entry entries]] eqn:Hs;
         try discriminate Hdb.
       - by rewrite scan_image_no_database by auto.
       - by rewrite scan_image_file.
       - by rewrite scan_image_no_database by auto. }
  rewrite scan_image_with_database by done. unfold output_path in Hpath. run.
  destruct (run_process E s _) as [[r | e] p]; cbn; [| done].
  destruct (Z.eqb (returncode r) 0); cbn; [| done].
  destruct (given_str output_file); cbn.
  - destruct Hpath as [Hpath | Hpath]; [done |].
    destruct (open_w E _ _); cbn; [done |].
    destruct (String.eqb format "json"); cbn.
    + destruct (json_loads E (stdout r)); cbn; by rewrite lookup_insert_ne.
    + by rewrite lookup_insert_ne.
  - destruct (String.eqb format "json"); cbn; [| done].
    by destruct (json_loads E (stdout r)).
Qed.

(** X9.  The method writes no file but its results file: every other path
    keeps its content, and with no results file asked for every path
    does. *)
Theorem scan_image_touches_one_file image format severity output_file
    vuln_type s path :
  given_str output_file = false ∨ path ≠ output_path E self output_file →
  st_files (scan_image E self image format severity output_file vuln_type s).2
    !! path
  = st_files s !! path.
Proof. apply scan_image_files_frame. Qed.

(** X10.  When the scanner process cannot be started, the exception is
    caught: the method logs it and returns [None], and nothing else
    changes. *)
Theorem scan_image_launch_failure image format severity output_file
    vuln_type s e :
  has_database (st_db s) = true →
  (run_process E s (scan_cmd self image format severity vuln_type)).1
  = Raised e →
  scan_image E self image format severity output_file vuln_type s
  = (Returned JNull,
     add_log (LogRecord ERROR "Scan failed: " (Some e))
       (scanned E (scan_cmd self image format severity vuln_type) s)).
Proof.
  intros Hdb Hrun. rewrite scan_image_with_database by done.
  unfold scanned. run.
  destruct (run_process E s _) as [o p]. cbn in Hrun. by subst o.
Qed.

(** X11.  When the process ends with a non-zero status, the method logs
    its error stream and returns [None]; no results file is written and
    the output is not decoded. *)
Theorem scan_image_failed_process image format severity output_file
    vuln_type s r :
  has_database (st_db s) = true →
  (run_process E s (scan_cmd self image format severity vuln_type)).1
  = Returned r →
  returncode r ≠ 0%Z →
  scan_image E self image format severity output_file vuln_type s
  = (Returned JNull,
     add_log (LogRecord ERROR ("Scan failed: " +:+ stderr r) None)
       (scanned E (scan_cmd self image format severity vuln_type) s)).
Proof.
  intros Hdb Hrun Hrc. rewrite scan_image_with_database by done.
  unfold scanned. run.
  destruct (run_process E s _) as [o p]. cbn in Hrun. subst o. cbn.
  apply Z.eqb_neq in Hrc. by rewrite Hrc.
Qed.

(** X12.  When the results file cannot be opened, a scan that succeeded is
    reported as failed: the method logs the error and returns [None]
    without decoding the output. *)
Theorem scan_image_write_failure image format severity output_file vuln_type
    s r e :
  has_database (st_db s) = true →
  (run_process E s (scan_cmd self image format severity vuln_type)).1
  = Returned r →
  returncode r = 0%Z →
  given_str output_file = true →
  open_w E (scanned E (scan_cmd self image format severity vuln_type) s)
         (output_path E self output_file) = Some e →
  scan_image E self image format severity output_file vuln_type s
  = (Returned JNull,
     add_log (LogRecord ERROR "Scan failed: " (Some e))
       (scanned E (scan_cmd self image format severity vuln_type) s)).
Proof.
  intros Hdb Hrun Hrc Hgiven Hopen. rewrite scan_image_with_database by done.
  unfold scanned, output_path in *. run.
  destruct (run_process E s _) as [o p]. cbn in Hrun, Hopen. subst o. cbn.
  rewrite Hrc, Hgiven. cbn. by rewrite Hopen.
Qed.

(** X13.  The value [None] is not only the mark of a failure: when the
    output of a successful json scan is the document [null], the method
    returns [None] and logs no error. *)
Theorem scan_image_null_document image severity vuln_type s r :
  has_database (st_db s) = true →
  (run_process E s (scan_cmd self image "json" severity vuln_type)).1
  = Returned r →
  returncode r = 0%Z →
  json_loads E (stdout r) = Returned JNull →
  scan_image E self image "json" severity None vuln_type s
  = (Returned JNull, scanned E (scan_cmd self image "json" severity vuln_type) s).
Proof.
  intros Hdb Hrun Hrc Hjson. rewrite scan_image_with_database by done.
  unfold scanned. run.
  destruct (run_process E s _) as [o p]. cbn in Hrun. subst o. cbn.
  rewrite Hrc. cbn. by rewrite Hjson.
Qed.

End ScanMore.

(** * Further properties of [setup_database] and [update_database] *)

Section SetupMore.

Context (E : Env) (self : scanner).

Ltac run :=
  unfold setup_database, update_database, clear_database, update_handler,
    try_except, subprocess_run, path_exists, rmtree, mkdir,
    mbind, M_bind, mret, M_ret, logger; cbn.

Ltac process :=
  match goal with
  | |- context [run_process E ?s ?cmd] =>
      let r := fresh "r" in
      let e := fresh "e" in
      let p := fresh "p" in
      let Hp := fresh "Hp" in
      destruct (run_process E s cmd) as [[r | e] p] eqn:Hp; cbn
  end.

Lemma setup_database_true_inv s s' :
  setup_database E self s = (Returned true, s') →
  exits_zero E (setup_pull_state s) pull_cmd = true ∧
  exits_zero E (setup_extract_state E s) (extract_cmd self) = true ∧
  st_invoked s' = (st_invoked s ++ [pull_cmd; extract_cmd self])%list.
Proof.
  unfold exits_zero, setup_extract_state, scanned, setup_pull_state. run.
  process.
  2: { by destruct (is_CalledProcessError e). }
  destruct (Z.eqb (returncode r) 0) eqn:Hrc; cbn; [| done].
  process.
  2: { by destruct (is_CalledProcessError e). }
  destruct (Z.eqb (returncode r0) 0) eqn:Hrc0; cbn; [| done].
  intros [= <-]. cbn. by rewrite <- app_assoc.
Qed.

(** X14.  [setup_database] returns [True] only when both its processes
    ended with status 0, the pull first and the extraction second, and it
    started no other process. *)
Theorem setup_database_true s s' :
  setup_database E self s = (Returned true, s') →
  exits_zero E (setup_pull_state s) pull_cmd = true ∧
  exits_zero E (setup_extract_state E s) (extract_cmd self) = true ∧
  st_invoked s' = (st_invoked s ++ [pull_cmd; extract_cmd self])%list.
Proof. apply setup_database_true_inv. Qed.

(** X15.  When the pull ends with a non-zero status, [setup_database]
    logs the failure and returns [False]; the extraction is not
    started. *)
Theorem setup_database_pull_failure s r :
  (run_process E (setup_pull_state s) pull_cmd).1 = Returned r →
  returncode r ≠ 0%Z →
  setup_database E self s
  = (Returned false,
     add_log (LogRecord ERROR "Failed to setup database: "
                (Some (CalledProcessError pull_cmd (returncode r))))
       (scanned E pull_cmd (setup_pull_state s))).
Proof.
  intros Hrun Hrc. unfold scanned, setup_pull_state in *. run.
  destruct (run_process E _ pull_cmd) as [o p]. cbn in Hrun. subst o. cbn.
  apply Z.eqb_neq in Hrc. by rewrite Hrc.
Qed.

(** X16.  The handler of [setup_database] catches only the error of a
    non-zero exit status: when the pull cannot be started at all, the
    exception leaves the method. *)
Theorem setup_database_launch_error s e :
  (run_process E (setup_pull_state s) pull_cmd).1 = Raised e →
  is_CalledProcessError e = false →
  setup_database E self s
  = (Raised e, scanned E pull_cmd (setup_pull_state s)).
Proof.
  intros Hrun He. unfold scanned, setup_pull_state in *. run.
  destruct (run_process E _ pull_cmd) as [o p]. cbn in Hrun. subst o. cbn.
  by rewrite He.
Qed.

(** X17.  [update_database] returns [True] only after three processes, in
    this order: the pull, the pull of [setup_database] again, and the
    extraction. *)
Theorem update_database_true s s' :
  update_database E self s = (Returned true, s') →
  st_invoked s' = (st_invoked s ++ [pull_cmd; pull_cmd; extract_cmd self])%list.
Proof.
  run. process; [| done].
  destruct (Z.eqb (returncode r) 0); cbn; [| done].
  assert (∀ s1 : state,
            st_invoked s1 = (st_invoked s ++ [pull_cmd])%list →
            (let (o, s2) := setup_database E self s1 in
             match o with
             | Returned a => (Returned a, s2)
             | Raised e =>
                 (Returned false,
                  add_log (LogRecord ERROR "Failed to update database: "
                             (Some e)) s2)
             end) = (Returned true, s') →
            st_invoked s'
            = (st_invoked s ++ [pull_cmd; pull_cmd; extract_cmd self])%list)
    as Hsetup.
  { intros s1 Hs1. destruct (setup_database E self s1) as [[b | e] s2] eqn:Hs2;
      [| done].
    intros [= -> ->]. apply setup_database_true_inv in Hs2 as (_ & _ & ->).
    rewrite Hs1. by rewrite <- app_assoc. }
  destruct p as [| | entries]; cbn.
  - by apply Hsetup.
  - done.
  - destruct (rmtree_fails E _) as [[e remaining] |]; cbn; [done |].
    by apply Hsetup.
Qed.

(** X18.  When the old database cannot be deleted, [update_database] logs
    the error and returns [False]: the extraction is not started, and the
    directory is left with what the deletion did not remove. *)
Theorem update_database_delete_failure s entries e remaining :
  pull_succeeds E s = true →
  st_db (pulled E s) = IsDir entries →
  rmtree_fails E (pulled E s) = Some (e, remaining) →
  update_database E self s
  = (Returned false,
     add_log (LogRecord ERROR "Failed to update database: " (Some e))
       (set_db (IsDir remaining) (pulled E s))).
Proof.
  unfold pull_succeeds, pulled, pull_state. run.
  destruct (run_process E _ pull_cmd) as [[r | e0] p]; cbn; [| done].
  intros -> ->. cbn. by intros ->.
Qed.

End SetupMore.

(** * Further properties of [scan_multiple_images] *)

Section MultiMore.

Context (E : Env) (self : scanner).

Lemma fst_paired (value : json) (images : list string) :
  ((λ image, (image, value)) <$> images).*1 = images.
Proof.
  induction images as [| image rest IH]; [done |].
  rewrite !fmap_cons. cbn. by rewrite IH.
Qed.

Lemma store_all_const (value : json) images : ∀ (m : gmap string json) k,
  k ∈ images →
  store_all ((λ image, (image, value)) <$> images) m !! k = Some value.
Proof.
  induction images as [| image rest IH]; intros m k Hk.
  - by apply elem_of_nil in Hk.
  - rewrite fmap_cons, store_all_cons.
    destruct (decide (k ∈ rest)) as [Hrest | Hrest]; [by apply IH |].
    apply elem_of_cons in Hk as [-> | Hk]; [| done].
    rewrite lookup_store_all_other; [apply lookup_insert_eq |].
    by rewrite fst_paired.
Qed.

Lemma scan_each_no_database format severity images : ∀ results s,
  st_db s = Absent ∨ st_db s = IsDir [] →
  ∃ s', scan_each E self images format severity results s
        = (Returned (store_all ((λ image, (image, JNull)) <$> images) results),
           s') ∧
        st_invoked s' = st_invoked s ∧ st_db s' = st_db s ∧
        st_files s' = st_files s.
Proof.
  induction images as [| image rest IH]; intros results s Hs.
  - by exists s.
  - pose proof (scan_image_no_database E self image format severity None None
                  (add_log (scanning_record image) s) Hs) as Hscan.
    rewrite (scan_each_step _ _ _ _ _ _ _ _ _ _ Hscan).
    match type of Hscan with
    | _ = (_, ?s1) =>
        destruct (IH (<[image := JNull]> results) s1 Hs)
          as (s' & -> & Hcmds & Hdb & Hfiles)
    end.
    rewrite fmap_cons, store_all_cons. by exists s'.
Qed.

(** X19.  With no database every image of the batch is bound to [None]
    and no process is started. *)
Theorem scan_multiple_images_no_database images format severity s :
  st_db s = Absent ∨ st_db s = IsDir [] →
  ∃ results s',
    scan_multiple_images E self images format severity s
    = (Returned results, s') ∧
    dom results = list_to_set images ∧
    (∀ image, image ∈ images → results !! image = Some JNull) ∧
    st_invoked s' = st_invoked s.
Proof.
  intros Hs.
  destruct (scan_each_no_database format severity images ∅ s Hs)
    as (s' & Hrun & Hcmds & _ & _).
  eexists _, s'. split; [exact Hrun |]. repeat split.
  - rewrite dom_store_all, dom_empty_L, fst_paired. set_solver.
  - intros image Himage. by apply store_all_const.
  - done.
Qed.

Lemma scan_each_commands format severity images :
  keeps_database E →
  ∀ results s, has_database (st_db s) = true →
  ∃ results' s',
    scan_each E self images format severity results s
    = (Returned results', s') ∧
    st_invoked s'
    = (st_invoked s
       ++ map (λ image, scan_cmd self image format severity None) images)%list ∧
    st_files s' = st_files s.
Proof.
  intros Henv. induction images as [| image rest IH]; intros results s Hs.
  - exists results, s. by rewrite app_nil_r.
  - set (s0 := add_log (scanning_record image) s).
    destruct (scan_image_database E self image format severity None None s0 Hs)
      as (value & s1 & Hscan & Hcmds1 & Hdb1).
    assert (st_files s1 = st_files s) as Hfiles1.
    { apply map_eq. intros path.
      pose proof (scan_image_files_frame E self image format severity None
                    None s0 path (or_introl eq_refl)) as H.
      by rewrite Hscan in H. }
    rewrite (scan_each_step _ _ _ _ _ _ _ _ _ _ Hscan).
    destruct (IH (<[image := value]> results) s1) as (m & s2 & -> & Hcmds & Hf).
    { rewrite Hdb1. by apply Henv. }
    exists m, s2. split; [done |]. split; [| congruence].
    rewrite Hcmds, Hcmds1. cbn. by rewrite <- app_assoc.
Qed.

(** X20.  With a database that no process empties, a batch starts exactly
    one process per entry of the list, in list order, each with the
    command line of a single scan without a vulnerability-type filter,
    and writes no file. *)
Theorem scan_multiple_images_commands images format severity s :
  keeps_database E → has_database (st_db s) = true →
  ∃ results s',
    scan_multiple_images E self images format severity s
    = (Returned results, s') ∧
    st_invoked s'
    = (st_invoked s
       ++ map (λ image, scan_cmd self image format severity None) images)%list ∧
    st_files s' = st_files s.
Proof. intros Henv Hs. by apply scan_each_commands. Qed.

End MultiMore.

(** * Further properties of [list_local_images] *)

Section ListMore.

Context (self : scanner) (client : DockerClient) (images : list image).
Hypothesis has_client : docker_client self = Some client.
Hypothesis listed : images_list client = Returned images.

Lemma append_tags_ok img size created tags : ∀ acc,
  dict_lookup "Size" (image_attrs img) = Some size →
  dict_lookup "Created" (image_attrs img) = Some created →
  for_each (append_tag img) tags acc
  = Returned (acc ++ map (λ tag, ImageRecord (substring 0 12 (image_id img))
                                   tag size created) tags)%list.
Proof.
  intros acc Hsize Hcreated. revert acc.
  assert (∀ acc tag,
            append_tag img acc tag
            = Returned (acc ++ [ImageRecord (substring 0 12 (image_id img))
                                  tag size created])%list) as Hstep.
  { intros acc tag. unfold append_tag, attr. by rewrite Hsize, Hcreated. }
  induction tags as [| tag tags IH]; intros acc.
  - cbn. by rewrite app_nil_r.
  - cbn [for_each map]. rewrite Hstep. unfold mbind, outcome_bind.
    rewrite IH. by rewrite <- app_assoc.
Qed.

Lemma append_image_ok img acc :
  has_attrs img = true →
  append_image acc img = Returned (acc ++ image_records img)%list.
Proof.
  unfold has_attrs. intros [Hsize Hcreated]%andb_prop.
  apply bool_decide_eq_true in Hsize as [size Hsize].
  apply bool_decide_eq_true in Hcreated as [created Hcreated].
  unfold append_image, image_records, records_of.
  rewrite Hsize, Hcreated. cbn. by apply append_tags_ok.
Qed.

Lemma append_image_missing img acc :
  has_attrs img = false → append_image acc img = Raised KeyError.
Proof.
  unfold has_attrs, append_image. intros Hattrs.
  assert (∀ tag tags, for_each (append_tag img) (tag :: tags) acc
                      = Raised KeyError) as Hraise.
  { intros tag tags. cbn. unfold append_tag, attr.
    destruct (dict_lookup "Size" (image_attrs img)); cbn; [| done].
    destruct (dict_lookup "Created" (image_attrs img)); cbn; [| done].
    apply andb_false_iff in Hattrs as [H | H];
      apply bool_decide_eq_false in H; destruct H; eauto. }
  destruct (image_tags img); apply Hraise.
Qed.

Lemma append_images_ok imgs : ∀ acc,
  forallb has_attrs imgs = true →
  for_each append_image imgs acc
  = Returned (acc ++ concat (map image_records imgs))%list.
Proof.
  induction imgs as [| img imgs IH]; intros acc Hall; cbn.
  - by rewrite app_nil_r.
  - cbn in Hall. apply andb_prop in Hall as [Himg Hall].
    rewrite append_image_ok by done. cbn.
    rewrite IH by done. by rewrite <- app_assoc.
Qed.

Lemma append_images_missing imgs : ∀ acc,
  forallb has_attrs imgs = false →
  for_each append_image imgs acc = Raised KeyError.
Proof.
  induction imgs as [| img imgs IH]; intros acc Hall; [discriminate Hall |].
  cbn in Hall. cbn. destruct (has_attrs img) eqn:Himg.
  - rewrite append_image_ok by done. cbn. by apply IH.
  - by rewrite append_image_missing.
Qed.

(** X21.  When every listed image has the attributes ["Size"] and
    ["Created"], the listing holds, image after image, one record per
    tag, or a single record with the tag ["<none>"] for an image without
    tags; nothing is logged. *)
Theorem list_local_images_records s :
  forallb has_attrs images = true →
  list_local_images self s
  = (Returned (concat (map image_records images)), s).
Proof.
  intros Hall. unfold list_local_images, try_except, mbind, M_bind, lift.
  rewrite has_client, listed. cbn. by rewrite append_images_ok.
Qed.

(** X22.  A single image without ["Size"] or ["Created"] empties the
    whole listing: the [KeyError] is caught and logged, and the records of
    the other images are dropped. *)
Theorem list_local_images_all_or_nothing s :
  forallb has_attrs images = false →
  list_local_images self s
  = (Returned [],
     add_log (LogRecord ERROR "Failed to list images: " (Some KeyError)) s).
Proof.
  intros Hall. unfold list_local_images, try_except, mbind, M_bind, lift.
  rewrite has_client, listed. cbn. by rewrite append_images_missing.
Qed.

End ListMore.

Section ListBounds.

Lemma length_substring_le s : ∀ start n,
  (String.length (substring start n s) ≤ n)%nat.
Proof.
  induction s as [| c s IH]; intros start n.
  - destruct start, n; cbn; lia.
  - destruct start as [| start], n as [| n]; cbn; try lia.
    + specialize (IH 0%nat n). lia.
    + apply IH.
    + apply IH.
Qed.

(** X23.  Every record of a listing carries an identifier of at most
    twelve characters. *)
Theorem list_local_images_short_ids (self : scanner) s records s' :
  list_local_images self s = (Returned records, s') →
  Forall (λ r, (String.length (rec_id r) ≤ 12)%nat) records.
Proof.
  unfold list_local_images.
  destruct (docker_client self) as [client |].
  2: { intros [= <- _]. constructor. }
  unfold try_except, mbind, M_bind, lift, logger, mret, M_ret.
  destruct (images_list client) as [images | e]; cbn.
  2: { intros [= <- _]. constructor. }
  destruct (for_each append_image images []) as [rs | e] eqn:Hloop; cbn.
  2: { intros [= <- _]. constructor. }
  intros [= <- _]. revert Hloop.
  apply (for_each_invariant
           (Forall (λ r, (String.length (rec_id r) ≤ 12)%nat)));
    [| constructor].
  intros acc img acc' Hacc. unfold append_image.
  apply (for_each_invariant
           (Forall (λ r, (String.length (rec_id r) ≤ 12)%nat))); [| done].
  intros acc1 tag acc2 Hacc1. unfold append_tag.
  destruct (attr img "Size"); cbn; [| done].
  destruct (attr img "Created"); cbn; [| done].
  intros [= <-]. apply Forall_app. split; [done |].
  constructor; [| constructor]. cbn. apply length_substring_le.
Qed.

End ListBounds.

(** * The constructor, composed with the methods *)

Section InitMore.

Context (E : Env).

Lemma init_effect db_arg cache_arg s self s1 :
  init E db_arg cache_arg s = (Returned self, s1) →
  st_db s1 = match st_db s with Absent => IsDir [] | p => p end ∧
  st_invoked s1 = st_invoked s ∧
  (∀ e, from_env E = Raised e →
        docker_client self = None ∧
        last (st_log s1)
        = Some (LogRecord WARNING "Docker client initialization failed: "
                  (Some e))).
Proof.
  unfold init, make_db_dir, make_dir, mbind, M_bind, mret, M_ret, logger.
  destruct (st_db s) eqn:Hs;
    repeat match goal with
           | |- context [mkdir_fails E ?path] =>
               destruct (mkdir_fails E path)
           end; try done;
    destruct (from_env E) eqn:Henv; intros [= <- <-]; cbn;
    rewrite ?Hs; (split; [done |]); (split; [done |]);
    intros e' [= <-]; (split; [done |]); apply last_snoc.
Qed.

(** The constructor returns when no regular file stands at the database
    path and its three directories can be created, whatever
    [docker.from_env()] does. *)
Lemma init_returns db_arg cache_arg s :
  st_db s ≠ IsFile → dirs_can_be_made E db_arg cache_arg →
  ∃ self s1, init E db_arg cache_arg s = (Returned self, s1).
Proof.
  intros Hs (Hdb & Hcache & Hresults).
  unfold init, make_db_dir, make_dir, mbind, M_bind, mret, M_ret, logger.
  rewrite Hcache, Hresults.
  destruct (st_db s); [rewrite Hdb | done |];
    destruct (from_env E); by eexists _, _.
Qed.

(** When a directory cannot be created the constructor raises, and no
    scanner is built. *)
Lemma init_raises_on_mkdir_failure db_arg cache_arg s e :
  st_db s = Absent →
  mkdir_fails E (chosen_path E db_arg "trivy-db") = Some e →
  init E db_arg cache_arg s = (Raised e, s).
Proof.
  intros Hs Hdb.
  unfold init, make_db_dir, mbind, M_bind. by rewrite Hs, Hdb.
Qed.


(** X25.  When [docker.from_env()] raises, the constructor catches the
    exception: where no regular file stands at the database path and the
    three directories can be created, it still returns a scanner, with no
    client and after logging a warning, and [list_local_images] on that
    scanner logs that the client is not available and returns the empty
    list. *)
Theorem scanner_without_runtime_lists_nothing db_arg cache_arg s e :
  from_env E = Raised e →
  st_db s ≠ IsFile →
  dirs_can_be_made E db_arg cache_arg →
  ∃ self s1,
    init E db_arg cache_arg s = (Returned self, s1) ∧
    docker_client self = None ∧
    last (st_log s1)
    = Some (LogRecord WARNING "Docker client initialization failed: "
              (Some e)) ∧
    list_local_images self s1
    = (Returned [],
       add_log (LogRecord ERROR "Docker client not available" None) s1).
Proof.
  intros Henv Hs Hdirs.
  destruct (init_returns db_arg cache_arg s Hs Hdirs) as (self & s1 & Hinit).
  exists self, s1. split; [done |].
  apply init_effect in Hinit as (_ & _ & Hclient).
  destruct (Hclient e Henv) as [Hnone Hlog].
  split; [done |]. split; [done |].
  unfold list_local_images. by rewrite Hnone.
Qed.

End InitMore.

(** * Properties of the [scan] command *)

Section MainFacts.

Context (E : Env).

Ltac run :=
  unfold main_scan, print_count, call, eval, print, mbind, P_bind, mret,
    P_ret; cbn.

(** X26.  For a format other than json and table the command prints
    nothing, whether the scan succeeds or not. *)
Theorem main_scan_quiet_formats image format severity output k :
  String.eqb format "json" = false →
  String.eqb format "table" = false →
  con_out (main_scan E image format severity output k).2 = con_out k.
Proof.
  intros Hjson Htable. run.
  destruct (init E None None (con_state k)) as [[self | e] s1]; cbn; [| done].
  destruct (scan_image E self image format severity output None s1)
    as [[result | e] s2]; cbn; [| done].
  by rewrite Hjson, Htable.
Qed.

(** X27.  Without a database, and where the constructor can create its
    three directories, the command completes, prints nothing and starts no
    process, whatever the format. *)
Theorem main_scan_without_database image format severity output k :
  st_db (con_state k) = Absent ∨ st_db (con_state k) = IsDir [] →
  dirs_can_be_made E None None →
  ∃ k', main_scan E image format severity output k = (Returned tt, k') ∧
        con_out k' = con_out k ∧
        st_invoked (con_state k') = st_invoked (con_state k).
Proof.
  intros Hdb Hdirs.
  destruct (init_returns E None None (con_state k)) as (self & s1 & Hinit);
    [destruct Hdb as [-> | ->]; discriminate | done |].
  run. rewrite Hinit. cbn.
  pose proof (init_effect _ _ _ _ _ _ Hinit) as (Hs1 & Hcmds & _).
  rewrite scan_image_no_database.
  2: { rewrite Hs1. destruct Hdb as [-> | ->]; auto. }
  cbn. rewrite !andb_false_r. by eexists.
Qed.

(** What the command does once the scanner is built and the scan has
    returned. *)
Lemma main_scan_after image format severity output k self s1 result s2 :
  init E None None (con_state k) = (Returned self, s1) →
  scan_image E self image format severity output None s1
  = (Returned result, s2) →
  main_scan E image format severity output k
  = (if String.eqb format "json" && truthy result then
       summary ← eval (Summary.get_vulnerability_summary result);
       print (JStr (newline +:+ "Vulnerability Summary for " +:+ image
                            +:+ ":"));;
       print_count "  CRITICAL: " summary "CRITICAL";;
       print_count "  HIGH:     " summary "HIGH";;
       print_count "  MEDIUM:   " summary "MEDIUM";;
       print_count "  LOW:      " summary "LOW";;
       print_count "  TOTAL:    " summary "total"
     else if String.eqb format "table" && truthy result then print result
     else mret tt) (Console s2 (con_out k)).
Proof.
  intros Hinit Hscan. unfold main_scan.
  unfold mbind at 1, P_bind at 1, call at 1. rewrite Hinit. cbv beta iota.
  unfold mbind at 1, P_bind at 1, call at 1. cbn [con_state con_out].
  by rewrite Hscan.
Qed.

(** X28.  With the json format and a non-empty report of the expected
    shape, the command prints six lines: a heading and the numbers of
    entries labelled CRITICAL, HIGH, MEDIUM and LOW, then the number of all
    entries.  The UNKNOWN bucket, and any bucket of another label, is not
    printed. *)
Theorem main_scan_prints_counts image severity output k self s1 report s2 :
  init E None None (con_state k) = (Returned self, s1) →
  scan_image E self image "json" severity output None s1
  = (Returned report, s2) →
  truthy report = true →
  Summary.report_shape Summary.not_total report = true →
  let entries := Summary.vuln_entries report in
  let number (label : string) :=
    pretty (Z.of_nat (Summary.count_label label entries)) in
  main_scan E image "json" severity output k
  = (Returned tt,
     Console s2
       (con_out k ++
        [JStr (newline +:+ "Vulnerability Summary for " +:+ image +:+ ":");
         JStr ("  CRITICAL: " +:+ number "CRITICAL");
         JStr ("  HIGH:     " +:+ number "HIGH");
         JStr ("  MEDIUM:   " +:+ number "MEDIUM");
         JStr ("  LOW:      " +:+ number "LOW");
         JStr ("  TOTAL:    " +:+ pretty (Z.of_nat (length entries)))])%list).
Proof.
  intros Hinit Hscan Htruthy Hshape entries number.
  rewrite (main_scan_after _ _ _ _ _ _ _ _ _ Hinit Hscan), Htruthy.
  destruct (summary_of_shape Summary.not_total not_total_spec _ Hshape)
    as (m & Hrun & (t & Ht0 & Ht) & Hcount).
  injection Ht0 as <-.
  destruct (sound_summary _ _ Hrun) as [Hkeys _].
  assert (∀ l, In l Summary.five_labels →
               Summary.getitem m (KStr l)
               = Returned (Z.of_nat (Summary.count_label l entries)))
    as Hget.
  { intros l Hl. unfold Summary.getitem.
    destruct (Hkeys l) as [v Hv]; [apply in_or_app; by left |].
    assert (l ≠ "total") as Hne.
    { intros ->. cbn in Hl. intuition discriminate. }
    specialize (Hcount l Hne). rewrite initial_bucket, Hv in Hcount.
    cbn in Hcount. rewrite Hv. f_equal. fold entries in Hcount. lia. }
  assert (Summary.getitem m (KStr "total")
          = Returned (Z.of_nat (length entries))) as Htotal.
  { unfold Summary.getitem. rewrite Ht. f_equal. }
  cbn [andb String.eqb]. replace (String.eqb "json" "json") with true
    by reflexivity. cbn [andb].
  unfold print_count, eval, print, mbind, P_bind. rewrite Hrun.
  rewrite !Hget, Htotal by (cbn; tauto). cbn.
  by rewrite <- !app_assoc.
Qed.

(** X29.  With the table format the command prints the captured text of a
    scan, once, when that text is not empty, and nothing otherwise. *)
Theorem main_scan_table image severity output k self s1 result s2 :
  init E None None (con_state k) = (Returned self, s1) →
  scan_image E self image "table" severity output None s1
  = (Returned result, s2) →
  main_scan E image "table" severity output k
  = (Returned tt,
     Console s2 (con_out k ++ (if truthy result then [result] else []))%list).
Proof.
  intros Hinit Hscan.
  rewrite (main_scan_after _ _ _ _ _ _ _ _ _ Hinit Hscan).
  change (String.eqb "table" "json") with false.
  change (String.eqb "table" "table") with true. cbn [andb].
  destruct (truthy result); cbn; [done |]. by rewrite app_nil_r.
Qed.

(** X30.  The command does not catch what the summary raises: with the
    json format and a decoded value on which [get_vulnerability_summary]
    fails, the exception leaves the command and nothing is printed. *)
Theorem main_scan_summary_error image severity output k self s1 report s2 e :
  init E None None (con_state k) = (Returned self, s1) →
  scan_image E self image "json" severity output None s1
  = (Returned report, s2) →
  Summary.get_vulnerability_summary report = Raised e →
  main_scan E image "json" severity output k
  = (Raised e, Console s2 (con_out k)).
Proof.
  intros Hinit Hscan Hraise.
  rewrite (main_scan_after _ _ _ _ _ _ _ _ _ Hinit Hscan).
  assert (truthy report = true) as ->.
  { destruct (truthy report) eqn:Ht; [done |].
    unfold Summary.get_vulnerability_summary in Hraise.
    by rewrite Ht in Hraise. }
  change (String.eqb "json" "json") with true. cbn [andb].
  unfold eval, mbind, P_bind. by rewrite Hraise.
Qed.

End MainFacts.

(** * The further theorems at sample inputs *)

Section MoreAtSamples.

Import Samples MoreSamples.

Lemma scan_image_result_means_exit_zero_witness :
  let cmd := scan_cmd self0 "nginx:latest" "json" None None in
  let r := scan_image env_empty_report self0 "nginx:latest" "json" None None
             None state0 in
  r.1 = Returned (JObj []) ∧
  has_database (st_db state0) = true ∧
  exits_zero env_empty_report state0 cmd = true ∧
  st_invoked r.2 = (st_invoked state0 ++ [cmd])%list.
Proof.
  split; [reflexivity |].
  apply (scan_image_result_means_exit_zero env_empty_report self0
           "nginx:latest" "json" None None None state0 (JObj [])
           (scan_image env_empty_report self0 "nginx:latest" "json" None None
              None state0).2);
    [reflexivity | discriminate].
Defined.

Lemma scan_image_raw_text_witness :
  (scan_image env_table self0 "nginx:latest" "table" None None None state0).1
  = Returned (JStr "nginx:latest (debian 12.5)  Total: 0").
Proof.
  apply (scan_image_raw_text env_table self0 "nginx:latest" "table" None None
           None state0
           (Completed 0 "nginx:latest (debian 12.5)  Total: 0" ""));
    try reflexivity.
  intros H. discriminate H.
Defined.

Lemma scan_image_saves_output_witness :
  json_loads env_garbled "<html>502 Bad Gateway</html>"
  = Raised (JSONDecodeError "Expecting value: line 1 column 1 (char 0)") ∧
  st_files (scan_image env_garbled self0 "nginx:latest" "json" None
              (Some "out.json") None state0).2
    !! output_path env_garbled self0 (Some "out.json")
  = Some "<html>502 Bad Gateway</html>".
Proof.
  split; [reflexivity |].
  apply (scan_image_saves_output env_garbled self0 "nginx:latest" "json" None
           (Some "out.json") None state0
           (Completed 0 "<html>502 Bad Gateway</html>" ""));
    reflexivity.
Defined.

Lemma scan_image_touches_one_file_witness :
  st_files (scan_image env_garbled self0 "nginx:latest" "json" None
              (Some "out.json") None state0).2
    !! "/opt/scanner/scan-results/earlier.json"
  = st_files state0 !! "/opt/scanner/scan-results/earlier.json".
Proof.
  apply (scan_image_touches_one_file env_garbled self0 "nginx:latest" "json"
           None (Some "out.json") None state0
           "/opt/scanner/scan-results/earlier.json").
  right. intros H. vm_compute in H. discriminate H.
Defined.

Lemma scan_image_launch_failure_witness :
  scan_image env_no_docker self0 "nginx:latest" "json" None None None state0
  = (Returned JNull,
     add_log (LogRecord ERROR "Scan failed: "
                (Some (OSError "[Errno 2] No such file or directory: 'docker'")))
       (scanned env_no_docker (scan_cmd self0 "nginx:latest" "json" None None)
                state0)).
Proof.
  apply (scan_image_launch_failure env_no_docker self0 "nginx:latest" "json"
           None None None state0); reflexivity.
Defined.

Lemma scan_image_failed_process_witness :
  scan_image env_scan_fails self0 "nginx:latest" "json" None (Some "out.json")
    None state0
  = (Returned JNull,
     add_log (LogRecord ERROR "Scan failed: FATAL image scan error" None)
       (scanned env_scan_fails
          (scan_cmd self0 "nginx:latest" "json" None None) state0)).
Proof.
  apply (scan_image_failed_process env_scan_fails self0 "nginx:latest" "json"
           None (Some "out.json") None state0
           (Completed 1 "" "FATAL image scan error"));
    [reflexivity | reflexivity | discriminate].
Defined.

Lemma scan_image_write_failure_witness :
  scan_image env_read_only self0 "nginx:latest" "json" None (Some "out.json")
    None state0
  = (Returned JNull,
     add_log (LogRecord ERROR "Scan failed: "
                (Some (OSError "[Errno 30] Read-only file system")))
       (scanned env_read_only
          (scan_cmd self0 "nginx:latest" "json" None None) state0)).
Proof.
  apply (scan_image_write_failure env_read_only self0 "nginx:latest" "json"
           None (Some "out.json") None state0 (Completed 0 "{}" ""));
    reflexivity.
Defined.

Lemma scan_image_null_document_witness :
  scan_image env_null self0 "nginx:latest" "json" None None None state0
  = (Returned JNull,
     scanned env_null (scan_cmd self0 "nginx:latest" "json" None None) state0).
Proof.
  apply (scan_image_null_document env_null self0 "nginx:latest" None None
           state0 (Completed 0 "null" "")); reflexivity.
Defined.

Lemma setup_database_true_witness :
  let r := setup_database env_empty_report self0 state0 in
  r.1 = Returned true ∧
  exits_zero env_empty_report (setup_pull_state state0) pull_cmd = true ∧
  exits_zero env_empty_report (setup_extract_state env_empty_report state0)
             (extract_cmd self0) = true ∧
  st_invoked r.2 = (st_invoked state0 ++ [pull_cmd; extract_cmd self0])%list.
Proof.
  split; [reflexivity |].
  apply (setup_database_true env_empty_report self0 state0
           (setup_database env_empty_report self0 state0).2).
  reflexivity.
Defined.

Lemma setup_database_pull_failure_witness :
  setup_database env_pull_fails self0 state0
  = (Returned false,
     add_log (LogRecord ERROR "Failed to setup database: "
                (Some (CalledProcessError pull_cmd 1)))
       (scanned env_pull_fails pull_cmd (setup_pull_state state0))).
Proof.
  apply (setup_database_pull_failure env_pull_fails self0 state0
           (Completed 1 "" "")); [reflexivity | discriminate].
Defined.

Lemma setup_database_launch_error_witness :
  setup_database env_no_docker self0 state0
  = (Raised (OSError "[Errno 2] No such file or directory: 'docker'"),
     scanned env_no_docker pull_cmd (setup_pull_state state0)).
Proof.
  apply (setup_database_launch_error env_no_docker self0 state0);
    reflexivity.
Defined.

Lemma update_database_true_witness :
  let r := update_database env_empty_report self0 state0 in
  r.1 = Returned true ∧
  st_invoked r.2
  = (st_invoked state0 ++ [pull_cmd; pull_cmd; extract_cmd self0])%list.
Proof.
  split; [reflexivity |].
  apply (update_database_true env_empty_report self0 state0
           (update_database env_empty_report self0 state0).2).
  reflexivity.
Defined.

Lemma update_database_delete_failure_witness :
  update_database env_rmtree_fails self0 state0
  = (Returned false,
     add_log (LogRecord ERROR "Failed to update database: "
                (Some (OSError "[Errno 13] Permission denied: 'db'")))
       (set_db (IsDir ["db"]) (pulled env_rmtree_fails state0))).
Proof.
  apply (update_database_delete_failure env_rmtree_fails self0 state0
           ["db"; "metadata.json"]); reflexivity.
Defined.

Lemma scan_multiple_images_no_database_witness :
  ∃ results s',
    scan_multiple_images env_empty_report self0 ["nginx:latest"; "redis:7"]
      "json" None state_empty_db
    = (Returned results, s') ∧
    dom results = list_to_set ["nginx:latest"; "redis:7"] ∧
    (∀ image, image ∈ ["nginx:latest"; "redis:7"] →
              results !! image = Some JNull) ∧
    st_invoked s' = st_invoked state_empty_db.
Proof.
  apply (scan_multiple_images_no_database env_empty_report self0
           ["nginx:latest"; "redis:7"] "json" None state_empty_db).
  right. reflexivity.
Defined.

Lemma scan_multiple_images_commands_witness :
  keeps_database env_empty_report ∧
  ∃ results s',
    scan_multiple_images env_empty_report self0 ["nginx:latest"; "redis:7"]
      "json" (Some ["HIGH"]) state0
    = (Returned results, s') ∧
    st_invoked s'
    = (st_invoked state0
       ++ map (λ image, scan_cmd self0 image "json" (Some ["HIGH"]) None)
              ["nginx:latest"; "redis:7"])%list ∧
    st_files s' = st_files state0.
Proof.
  assert (keeps_database env_empty_report) as Henv by (by intros s cmd H).
  split; [exact Henv |].
  apply (scan_multiple_images_commands env_empty_report self0
           ["nginx:latest"; "redis:7"] "json" (Some ["HIGH"]) state0 Henv).
  reflexivity.
Defined.

Lemma list_local_images_records_witness :
  list_local_images (self_of [image_tagged; image_untagged]) state0
  = (Returned (concat (map image_records [image_tagged; image_untagged])),
     state0).
Proof.
  apply (list_local_images_records (self_of [image_tagged; image_untagged])
           (Client (Returned [image_tagged; image_untagged]))
           [image_tagged; image_untagged]); reflexivity.
Defined.

Lemma list_local_images_all_or_nothing_witness :
  list_local_images (self_of [image_tagged; image_no_size]) state0
  = (Returned [],
     add_log (LogRecord ERROR "Failed to list images: " (Some KeyError))
             state0).
Proof.
  apply (list_local_images_all_or_nothing
           (self_of [image_tagged; image_no_size])
           (Client (Returned [image_tagged; image_no_size]))
           [image_tagged; image_no_size]); reflexivity.
Defined.

Lemma list_local_images_short_ids_witness :
  Forall (λ r, (String.length (rec_id r) ≤ 12)%nat)
    (concat (map image_records [image_tagged; image_untagged])).
Proof.
  apply (list_local_images_short_ids
           (self_of [image_tagged; image_untagged]) state0 _ state0).
  reflexivity.
Defined.

Lemma sample_dirs_can_be_made : dirs_can_be_made env_empty_report None None.
Proof. repeat split. Qed.


Lemma scanner_without_runtime_lists_nothing_witness :
  from_env env_empty_report
  = Raised (DockerException "Error while fetching server API version") ∧
  ∃ self s1,
    init env_empty_report None None state0 = (Returned self, s1) ∧
    docker_client self = None ∧
    last (st_log s1)
    = Some (LogRecord WARNING "Docker client initialization failed: "
              (Some (DockerException
                       "Error while fetching server API version"))) ∧
    list_local_images self s1
    = (Returned [],
       add_log (LogRecord ERROR "Docker client not available" None) s1).
Proof.
  split; [reflexivity |].
  apply (scanner_without_runtime_lists_nothing env_empty_report None None
           state0
           (DockerException "Error while fetching server API version"));
    [reflexivity | discriminate | exact sample_dirs_can_be_made].
Defined.

Lemma main_scan_quiet_formats_witness :
  con_out (main_scan env_table "nginx:latest" "spdx" None None
             (Console state0 [])).2
  = [].
Proof.
  apply (main_scan_quiet_formats env_table "nginx:latest" "spdx" None None
           (Console state0 [])); reflexivity.
Defined.

Lemma table_dirs_can_be_made : dirs_can_be_made env_table None None.
Proof. repeat split. Qed.

Lemma main_scan_without_database_witness :
  ∃ k', main_scan env_table "nginx:latest" "table" None None
          (Console state_absent [])
        = (Returned tt, k') ∧
        con_out k' = [] ∧ st_invoked (con_state k') = [].
Proof.
  apply (main_scan_without_database env_table "nginx:latest" "table" None None
           (Console state_absent [])).
  - left. reflexivity.
  - exact table_dirs_can_be_made.
Defined.

Lemma main_scan_prints_counts_witness :
  ∃ s2,
    main_scan (env_decoding report_nginx) "nginx:latest" "json" None None
      (Console state0 [])
    = (Returned tt,
       Console s2
         [JStr (newline +:+ "Vulnerability Summary for nginx:latest:");
          JStr "  CRITICAL: 2"; JStr "  HIGH:     0"; JStr "  MEDIUM:   0";
          JStr "  LOW:      1"; JStr "  TOTAL:    3"]).
Proof.
  eexists.
  exact (main_scan_prints_counts (env_decoding report_nginx) "nginx:latest"
           None None (Console state0 []) self0 _ report_nginx _
           eq_refl eq_refl eq_refl eq_refl).
Defined.

Lemma main_scan_table_witness :
  ∃ s2,
    main_scan env_table "nginx:latest" "table" None None (Console state0 [])
    = (Returned tt,
       Console s2 [JStr "nginx:latest (debian 12.5)  Total: 0"]).
Proof.
  eexists.
  exact (main_scan_table env_table "nginx:latest" None None
           (Console state0 []) self0 _ _ _ eq_refl eq_refl).
Defined.

Lemma main_scan_summary_error_witness :
  ∃ s2,
    main_scan (env_decoding report_null_results) "nginx:latest" "json" None
      None (Console state0 [])
    = (Raised TypeError, Console s2 []).
Proof.
  eexists.
  exact (main_scan_summary_error (env_decoding report_null_results)
           "nginx:latest" None None (Console state0 []) self0 _
           report_null_results _ TypeError eq_refl eq_refl eq_refl).
Defined.

End MoreAtSamples.
